(** * Register protocol of the Qwiic Twist and WiiChuck drivers

    A shallow embedding of [sparkfun_qwiictwist.py] and
    [wiichuck/__init__.py].  Python integers are [Z] with the bit
    operations of [Z]; the I2C bus, the peripheral's register file, the
    bytearray objects and the console are fields of an explicit [world]
    threaded through a state-and-exception monad. *)

From Stdlib Require Import ZArith QArith String List Lia DecimalString.
From stdpp Require Import base option list gmap.

Local Open Scope Z_scope.

(** ** Python exceptions and results *)

Inductive exn : Type :=
| ValueError
| OSError
| IndexError.

Inductive result (A : Type) : Type :=
| Ok (a : A)
| Raise (e : exn).

Arguments Ok {A} a.
Arguments Raise {A} e.

(** ** The world the drivers act on *)

(** What is put on the wire, in order.  [BusProbe] is the presence check
    made when an [I2CDevice] is constructed. *)
Inductive event : Type :=
| BusWrite (address : Z) (payload : list Z)
| BusRead (address : Z) (count : nat)
| BusProbe (address : Z)
| Sleep (seconds : Q).

(** Lines printed on the console.  The two debug formats keep their
    arguments instead of the rendered text. *)
Inductive line : Type :=
| Text (s : string)
| ExcText (e : exn)
| DebugRead (addr : Z) (data : list Z)
| DebugWrite (addr : Z) (value : Z).

(** A bytearray is known by its position in [heap]. *)
Definition loc : Type := nat.

Record world : Type := World {
  acks : Z -> bool;          (* bus addresses that acknowledge *)
  regs : gmap Z Z;           (* register file of the peripheral *)
  ptr : Z;                   (* register selected by the last write *)
  heap : list (list Z);      (* bytearray objects *)
  trace : list event;        (* bus traffic and delays, oldest first *)
  stdout : list line         (* console, oldest first *)
}.

Definition emit (e : event) (w : world) : world :=
  World (acks w) (regs w) (ptr w) (heap w) (trace w ++ [e]) (stdout w).

Definition say (l : line) (w : world) : world :=
  World (acks w) (regs w) (ptr w) (heap w) (trace w) (stdout w ++ [l]).

Definition reg (m : gmap Z Z) (a : Z) : Z := default 0 (m !! a).

(** Bytes following the register offset land in consecutive registers. *)
Fixpoint store_from (a : Z) (data : list Z) (m : gmap Z Z) : gmap Z Z :=
  match data with
  | [] => m
  | b :: data' => store_from (a + 1) data' (<[a := b]> m)
  end.

Fixpoint load_from (a : Z) (n : nat) (m : gmap Z Z) : list Z :=
  match n with
  | O => []
  | S n' => reg m a :: load_from (a + 1) n' m
  end.

(** The peripheral takes a write: first byte selects the register, the
    rest is stored from there on. *)
Definition device_write (payload : list Z) (w : world) : world :=
  match payload with
  | [] => w
  | a :: data =>
      World (acks w) (store_from a data (regs w)) a (heap w) (trace w) (stdout w)
  end.

Definition set_heap (h : list (list Z)) (w : world) : world :=
  World (acks w) (regs w) (ptr w) h (trace w) (stdout w).

(** ** State and exception monad *)

Definition M (A : Type) : Type := world -> result A * world.

Definition ret {A} (a : A) : M A := fun w => (Ok a, w).

Definition raise {A} (e : exn) : M A := fun w => (Raise e, w).

Definition bind {A B} (m : M A) (k : A -> M B) : M B :=
  fun w =>
    match m w with
    | (Ok a, w') => k a w'
    | (Raise e, w') => (Raise e, w')
    end.

(** [try: m except E: h]; [h e = None] when the clause does not match. *)
Definition try_except {A} (m : M A) (h : exn -> option (M A)) : M A :=
  fun w =>
    match m w with
    | (Ok a, w') => (Ok a, w')
    | (Raise e, w') =>
        match h e with
        | Some k => k w'
        | None => (Raise e, w')
        end
    end.

Notation "x <- m ;; k" := (bind m (fun x => k))
  (at level 100, m at next level, right associativity).
Notation "m ;; k" := (bind m (fun _ => k))
  (at level 100, right associativity).

(** ** Built-ins the drivers call *)

Definition print (l : line) : M unit := fun w => (Ok tt, say l w).

(** [time.sleep(seconds)]: a negative length raises ValueError and no
    time passes. *)
Definition sleep (seconds : Q) : M unit :=
  fun w =>
    if Qle_bool 0 seconds then (Ok tt, emit (Sleep seconds) w)
    else (Raise ValueError, w).

Definition is_byte (b : Z) : bool := (0 <=? b) && (b <? 256).

(** [bytes([...])]: every item must be in [range(256)]. *)
Definition bytes (items : list Z) : M (list Z) :=
  if forallb is_byte items then ret items else raise ValueError.

(** [bytearray(n)]: a fresh object of [n] zero bytes. *)
Definition bytearray (n : nat) : M loc :=
  fun w => (Ok (length (heap w)), set_heap (heap w ++ [replicate n 0]) w).

(** [buf[i]] *)
Definition getitem (buf : loc) (i : nat) : M Z :=
  fun w =>
    match heap w !! buf with
    | Some data =>
        match data !! i with
        | Some b => (Ok b, w)
        | None => (Raise IndexError, w)
        end
    | None => (Raise IndexError, w)
    end.

(** [list(buf)], for the debug line *)
Definition contents (buf : loc) : M (list Z) :=
  fun w => (Ok (default [] (heap w !! buf)), w).

(** ** adafruit_bus_device.i2c_device.I2CDevice *)

Inductive I2C : Type := Bus.

Record I2CDevice : Type := MkI2CDevice {
  device_bus : I2C;
  device_address : Z
}.

(** [I2CDevice(i2c, address)] probes the address and raises ValueError
    when nothing answers. *)
Definition I2CDevice_new (bus : I2C) (address : Z) : M I2CDevice :=
  fun w =>
    let w' := emit (BusProbe address) w in
    if acks w address then (Ok (MkI2CDevice bus address), w')
    else (Raise ValueError, w').

(** [device.write(buf)] *)
Definition write (device : I2CDevice) (buf : list Z) : M unit :=
  fun w =>
    let w' := emit (BusWrite (device_address device) buf) w in
    if acks w (device_address device) then (Ok tt, device_write buf w')
    else (Raise OSError, w').

(** [device.readinto(buf)] fills the whole of [buf]. *)
Definition readinto (device : I2CDevice) (buf : loc) : M unit :=
  fun w =>
    let n := length (default [] (heap w !! buf)) in
    let w' := emit (BusRead (device_address device) n) w in
    if acks w (device_address device)
    then (Ok tt, set_heap (<[buf := load_from (ptr w) n (regs w)]> (heap w')) w')
    else (Raise OSError, w').

(** ** sparkfun_qwiictwist.py *)

Definition QWIIC_TWIST_ADDR : Z := 0x3F.
Definition QWIIC_TWIST_ADDR_ALT : Z := 0x3E.
Definition QWIIC_TWIST_ID : Z := 0x5C.

Definition _BUTTON_CLICKED_BIT : Z := 2.
Definition _BUTTON_PRESSED_BIT : Z := 1.
Definition _ENCODER_MOVED_BIT : Z := 0.
Definition _BUTTON_INT_ENABLE : Z := 1.
Definition _ENCODER_INT_ENABLE : Z := 0.

Definition _TWIST_ID : Z := 0x00.
Definition _TWIST_STATUS : Z := 0x01.
Definition _TWIST_VERSION : Z := 0x02.
Definition _TWIST_ENABLE_INTS : Z := 0x04.
Definition _TWIST_COUNT : Z := 0x05.
Definition _TWIST_DIFFERENCE : Z := 0x07.
Definition _TWIST_LAST_ENCODER_EVENT : Z := 0x09.
Definition _TWIST_LAST_BUTTON_EVENT : Z := 0x0B.
Definition _TWIST_RED : Z := 0x0D.
Definition _TWIST_GREEN : Z := 0x0E.
Definition _TWIST_BLUE : Z := 0x0F.
Definition _TWIST_CONNECT_RED : Z := 0x10.
Definition _TWIST_CONNECT_GREEN : Z := 0x12.
Definition _TWIST_CONNECT_BLUE : Z := 0x14.
Definition _TWIST_TURN_INT_TIMEOUT : Z := 0x16.
Definition _TWIST_CHANGE_ADDRESS : Z := 0x18.

(** Truth value of a Python integer. *)
Definition truthy (x : Z) : bool := negb (x =? 0).

Definition _signed_int16 (value : Z) : Z :=
  let result := value in
  if truthy (Z.land result (Z.shiftl 1 15)) then result - Z.shiftl 1 16
  else result.

Record Sparkfun_QwiicTwist : Type := MkTwist {
  _device : I2CDevice;
  _i2c : I2C;
  _debug : bool
}.

(** [__init__(self, i2c, address=QWIIC_TWIST_ADDR, debug=False)] *)
Definition Sparkfun_QwiicTwist_init (bus : I2C) (address : Z) (debug : bool)
  : M Sparkfun_QwiicTwist :=
  device <- I2CDevice_new bus address ;;
  ret (MkTwist device bus debug).

(** The [with self._device as device:] blocks take the bus lock for the
    transaction and release it on every exit; with a single caller the
    lock is always free, so the block is its body run on [_device self]. *)

Definition _read_register8 (self : Sparkfun_QwiicTwist) (addr : Z) : M Z :=
  let device := _device self in
  sel <- bytes [Z.land addr 0xFF] ;;
  write device sel ;;
  result <- bytearray 1 ;;
  readinto device result ;;
  (if _debug self
   then data <- contents result ;; print (DebugRead addr data)
   else ret tt) ;;
  getitem result 0.

Definition _write_register8 (self : Sparkfun_QwiicTwist) (addr value : Z) : M unit :=
  let device := _device self in
  buf <- bytes [Z.land addr 0xFF; Z.land value 0xFF] ;;
  write device buf ;;
  if _debug self then print (DebugWrite addr value) else ret tt.

Definition _read_register16 (self : Sparkfun_QwiicTwist) (addr : Z) : M Z :=
  let device := _device self in
  sel <- bytes [Z.land addr 0xFF] ;;
  write device sel ;;
  result <- bytearray 2 ;;
  readinto device result ;;
  (if _debug self
   then data <- contents result ;; print (DebugRead addr data)
   else ret tt) ;;
  hi <- getitem result 1 ;;
  lo <- getitem result 0 ;;
  ret (Z.lor (Z.shiftl hi 8) lo).

Definition _write_register16 (self : Sparkfun_QwiicTwist) (addr value : Z) : M unit :=
  let device := _device self in
  buf <- bytes [Z.land addr 0xFF; Z.land value 0xFF;
                Z.land (Z.shiftr value 8) 0xFF] ;;
  write device buf ;;
  if _debug self
  then print (DebugWrite addr (Z.land value 0xFF)) ;;
       print (DebugWrite addr (Z.land (Z.shiftr value 8) 0xFF))
  else ret tt.

Definition _write_register24 (self : Sparkfun_QwiicTwist) (addr value : Z) : M unit :=
  let device := _device self in
  buf <- bytes [Z.land addr 0xFF;
                Z.land (Z.shiftr value 16) 0xFF;
                Z.land (Z.shiftr value 8) 0xFF;
                Z.land value 0xFF] ;;
  write device buf ;;
  if _debug self
  then print (DebugWrite addr (Z.land (Z.shiftr value 16) 0xFF)) ;;
       print (DebugWrite addr (Z.land (Z.shiftr value 8) 0xFF)) ;;
       print (DebugWrite addr (Z.land value 0xFF))
  else ret tt.

(** [str(n)] for an integer *)
Definition str (n : Z) : string := NilZero.string_of_int (Z.to_int n).

Definition connected (self : Sparkfun_QwiicTwist) : M bool :=
  id <- _read_register8 self _TWIST_ID ;;
  if negb (id =? QWIIC_TWIST_ID) then ret false else ret true.

Definition version (self : Sparkfun_QwiicTwist) : M string :=
  value <- _read_register16 self _TWIST_VERSION ;;
  let major := Z.land value 0xFF in
  let minor := Z.land (Z.shiftr value 8) 0xFF in
  ret ("v" ++ str major ++ "." ++ str minor)%string.

Definition moved (self : Sparkfun_QwiicTwist) : M bool :=
  status <- _read_register8 self _TWIST_STATUS ;;
  let moved := Z.land status (Z.shiftl 1 _ENCODER_MOVED_BIT) in
  _write_register8 self _TWIST_STATUS
    (Z.land status (Z.lnot (Z.shiftl 1 _ENCODER_MOVED_BIT))) ;;
  ret (truthy moved).

Definition pressed (self : Sparkfun_QwiicTwist) : M bool :=
  status <- _read_register8 self _TWIST_STATUS ;;
  let pressed := Z.land status (Z.shiftl 1 _BUTTON_PRESSED_BIT) in
  _write_register8 self _TWIST_STATUS
    (Z.land status (Z.lnot (Z.shiftl 1 _BUTTON_PRESSED_BIT))) ;;
  ret (truthy pressed).

Definition clicked (self : Sparkfun_QwiicTwist) : M bool :=
  status <- _read_register8 self _TWIST_STATUS ;;
  let clicked := Z.land status (Z.shiftl 1 _BUTTON_CLICKED_BIT) in
  _write_register8 self _TWIST_STATUS
    (Z.land status (Z.lnot (Z.shiftl 1 _BUTTON_CLICKED_BIT))) ;;
  ret (truthy clicked).

Definition difference (self : Sparkfun_QwiicTwist) : M Z :=
  value <- _read_register16 self _TWIST_DIFFERENCE ;;
  let diff := _signed_int16 value in
  _write_register16 self _TWIST_DIFFERENCE 0 ;;
  ret diff.

Definition time_since_last_movement (self : Sparkfun_QwiicTwist) : M Z :=
  elapsed_time <- _read_register16 self _TWIST_LAST_ENCODER_EVENT ;;
  ret elapsed_time.

Definition time_since_last_press (self : Sparkfun_QwiicTwist) : M Z :=
  elapsed_time <- _read_register16 self _TWIST_LAST_BUTTON_EVENT ;;
  ret elapsed_time.

Definition count (self : Sparkfun_QwiicTwist) : M Z :=
  value <- _read_register16 self _TWIST_COUNT ;;
  ret (_signed_int16 value).

Definition set_count (self : Sparkfun_QwiicTwist) (value : Z) : M unit :=
  _write_register16 self _TWIST_COUNT value.

Definition red (self : Sparkfun_QwiicTwist) : M Z := _read_register8 self _TWIST_RED.

Definition set_red (self : Sparkfun_QwiicTwist) (value : Z) : M unit :=
  _write_register8 self _TWIST_RED value.

Definition green (self : Sparkfun_QwiicTwist) : M Z := _read_register8 self _TWIST_GREEN.

Definition set_green (self : Sparkfun_QwiicTwist) (value : Z) : M unit :=
  _write_register8 self _TWIST_GREEN value.

Definition blue (self : Sparkfun_QwiicTwist) : M Z := _read_register8 self _TWIST_BLUE.

Definition set_blue (self : Sparkfun_QwiicTwist) (value : Z) : M unit :=
  _write_register8 self _TWIST_BLUE value.

Definition red_connection (self : Sparkfun_QwiicTwist) : M Z :=
  value <- _read_register16 self _TWIST_CONNECT_RED ;;
  ret (_signed_int16 value).

Definition set_red_connection (self : Sparkfun_QwiicTwist) (value : Z) : M unit :=
  _write_register16 self _TWIST_CONNECT_RED value.

Definition green_connection (self : Sparkfun_QwiicTwist) : M Z :=
  value <- _read_register16 self _TWIST_CONNECT_GREEN ;;
  ret (_signed_int16 value).

Definition set_green_connection (self : Sparkfun_QwiicTwist) (value : Z) : M unit :=
  _write_register16 self _TWIST_CONNECT_GREEN value.

Definition blue_connection (self : Sparkfun_QwiicTwist) : M Z :=
  value <- _read_register16 self _TWIST_CONNECT_BLUE ;;
  ret (_signed_int16 value).

Definition set_blue_connection (self : Sparkfun_QwiicTwist) (value : Z) : M unit :=
  _write_register16 self _TWIST_CONNECT_BLUE value.

Definition int_timeout (self : Sparkfun_QwiicTwist) : M Z :=
  value <- _read_register16 self _TWIST_TURN_INT_TIMEOUT ;;
  ret (_signed_int16 value).

Definition set_int_timeout (self : Sparkfun_QwiicTwist) (value : Z) : M unit :=
  _write_register16 self _TWIST_TURN_INT_TIMEOUT value.

Definition clear_interrupts (self : Sparkfun_QwiicTwist) : M unit :=
  _write_register8 self _TWIST_STATUS 0.

Definition set_color (self : Sparkfun_QwiicTwist) (red_value green_value blue_value : Z)
  : M unit :=
  _write_register24 self _TWIST_RED
    (Z.lor (Z.lor (Z.shiftl (Z.land red_value 0xFF) 16)
                  (Z.shiftl (Z.land green_value 0xFF) 8))
           (Z.land blue_value 0xFF)).

Definition connect_color (self : Sparkfun_QwiicTwist) (red_value green_value blue_value : Z)
  : M unit :=
  _write_register16 self _TWIST_CONNECT_RED red_value ;;
  _write_register16 self _TWIST_CONNECT_GREEN green_value ;;
  _write_register16 self _TWIST_CONNECT_BLUE blue_value.

(** [change_address] assigns [self._device]; the client after the call
    is returned next to the Python result.  When the call raises, the
    client is the one passed in.  The [return True] that follows the
    [try] statement is the last step of the [try] body here: it cannot
    raise, so the handler sees the constructor's exceptions only. *)
Definition change_address (self : Sparkfun_QwiicTwist) (new_address : Z)
  : M (bool * Sparkfun_QwiicTwist) :=
  if (new_address <? 8) || (new_address >? 119) then
    print (Text "ERROR: Address outside 8-119 range") ;;
    ret (false, self)
  else
    _write_register8 self _TWIST_CHANGE_ADDRESS new_address ;;
    sleep 1 ;;
    try_except
      (device <- I2CDevice_new (_i2c self) new_address ;;
       ret (true, MkTwist device (_i2c self) (_debug self)))
      (fun err =>
         match err with
         | ValueError =>
             Some (print (Text "Address Change Failure") ;;
                   print (ExcText err) ;;
                   ret (false, self))
         | _ => None
         end).

(** ** wiichuck/__init__.py *)

Definition _I2C_INIT_DELAY : Q := 1 # 10.

Record WiiChuckBase : Type := MkWiiChuck {
  buffer : loc;
  i2c_device : I2CDevice;
  _i2c_read_delay : Q
}.

(** [__init__(self, i2c, address=0x52, i2c_read_delay=0.002)] *)
Definition WiiChuckBase_init (i2c : I2C) (address : Z) (i2c_read_delay : Q)
  : M WiiChuckBase :=
  buffer <- bytearray 8 ;;
  i2c_device <- I2CDevice_new i2c address ;;
  sleep _I2C_INIT_DELAY ;;
  let i2c_dev := i2c_device in
  write i2c_dev [0xF0; 0x55] ;;
  sleep _I2C_INIT_DELAY ;;
  write i2c_dev [0xFB; 0x00] ;;
  ret (MkWiiChuck buffer i2c_device i2c_read_delay).

Definition default_address : Z := 0x52.
Definition default_i2c_read_delay : Q := 2 # 1000.

Definition WiiChuckBase_default (i2c : I2C) : M WiiChuckBase :=
  WiiChuckBase_init i2c default_address default_i2c_read_delay.

Definition _read_register (self : WiiChuckBase) (address : list Z) : M loc :=
  let i2c := i2c_device self in
  write i2c address ;;
  sleep (_i2c_read_delay self) ;;
  readinto i2c (buffer self) ;;
  ret (buffer self).

Definition _read_data (self : WiiChuckBase) : M loc :=
  _read_register self [0x00].

(** [n] calls of [_read_data] in a row, collecting what each returns. *)
Fixpoint read_many (self : WiiChuckBase) (n : nat) : M (list loc) :=
  match n with
  | O => ret []
  | S n' =>
      b <- _read_data self ;;
      bs <- read_many self n' ;;
      ret (b :: bs)
  end.

(** ** Specification vocabulary *)

(** Events issued between two worlds of one run. *)
Definition issued (w w' : world) : list event := drop (length (trace w)) (trace w').

Definition is_bus_write (e : event) : bool :=
  match e with
  | BusWrite _ _ => true
  | _ => false
  end.

(** The pattern shared by [moved], [pressed] and [clicked]. *)
Definition flag_read (bit : Z) (self : Sparkfun_QwiicTwist) : M bool :=
  status <- _read_register8 self _TWIST_STATUS ;;
  _write_register8 self _TWIST_STATUS (Z.land status (Z.lnot (Z.shiftl 1 bit))) ;;
  ret (truthy (Z.land status (Z.shiftl 1 bit))).

(** What a read of a status flag must achieve, for status [s] held in
    world [w] and a client bound to bus address [a]. *)
Definition flag_post (bit s a : Z) (w : world) (out : result bool * world) : Prop :=
  out.1 = Ok (Z.testbit s bit) /\
  regs out.2 = <[_TWIST_STATUS := Z.clearbit s bit]> (regs w) /\
  Z.testbit (reg (regs out.2) _TWIST_STATUS) bit = false /\
  (forall i, i <> bit -> Z.testbit (reg (regs out.2) _TWIST_STATUS) i = Z.testbit s i) /\
  trace out.2 =
    trace w ++ [BusWrite a [_TWIST_STATUS]; BusRead a 1;
                BusWrite a [_TWIST_STATUS; Z.clearbit s bit]].

(** The 16-bit quantity held little-endian in registers [a], [a + 1]. *)
Definition reg16 (m : gmap Z Z) (a : Z) : Z := reg m a + 256 * reg m (a + 1).

(** Two's-complement reading of a 16-bit pattern, as the spec words it. *)
Definition decode_signed16 (v : Z) : Z := if v <? 32768 then v else v - 65536.

(** A client whose buffer is a live 8-byte object. *)
Definition chuck_ok (self : WiiChuckBase) (w : world) : Prop :=
  exists data, heap w !! buffer self = Some data /\ length data = 8%nat.

Definition say_all (ls : list line) (w : world) : world :=
  World (acks w) (regs w) (ptr w) (heap w) (trace w) (stdout w ++ ls).

(** Outcome of one write transaction of [buf] by client [self], which
    prints [dbg] afterwards when debugging is on. *)
Definition after_write (self : Sparkfun_QwiicTwist) (buf : list Z) (dbg : list line)
    (w : world) : result unit * world :=
  let a := device_address (_device self) in
  let w1 := emit (BusWrite a buf) w in
  if acks w a
  then (Ok tt, say_all (if _debug self then dbg else []) (device_write buf w1))
  else (Raise OSError, w1).

(** Outcome of selecting register [r] and reading [n] bytes into a fresh
    bytearray, on a bus that acknowledges. *)
Definition after_read (self : Sparkfun_QwiicTwist) (addr r : Z) (n : nat)
    (w : world) : world :=
  let a := device_address (_device self) in
  let data := load_from r n (regs w) in
  World (acks w) (regs w) r (heap w ++ [data])
        (trace w ++ [BusWrite a [r]; BusRead a n])
        (stdout w ++ if _debug self then [DebugRead addr data] else []).

Definition in_range (n : Z) : Prop := 8 <= n <= 119.

(** The client after a successful rebind to address [n]. *)
Definition rebound (self : Sparkfun_QwiicTwist) (n : Z) : Sparkfun_QwiicTwist :=
  MkTwist (MkI2CDevice (_i2c self) n) (_i2c self) (_debug self).

Definition after_chuck_init (address : Z) (w : world) : world :=
  World (acks w)
        (<[0xFB := 0x00]> (<[0xF0 := 0x55]> (regs w)))
        0xFB
        (heap w ++ [replicate 8 0])
        (trace w ++ [BusProbe address; Sleep _I2C_INIT_DELAY;
                     BusWrite address [0xF0; 0x55]; Sleep _I2C_INIT_DELAY;
                     BusWrite address [0xFB; 0x00]])
        (stdout w).

Definition after_chuck_read (self : WiiChuckBase) (w : world) : world :=
  let a := device_address (i2c_device self) in
  World (acks w) (regs w) 0x00
        (<[buffer self := load_from 0x00 8 (regs w)]> (heap w))
        (trace w ++ [BusWrite a [0x00]; Sleep (_i2c_read_delay self); BusRead a 8])
        (stdout w).

(** ** Sample clients and worlds *)

Definition demo_acks (a : Z) : bool := (a =? 0x3F) || (a =? 0x40) || (a =? 0x52).

(** Status 0b111, version bytes 1 and 2, difference 0xFFFE. *)
Definition demo_world : world :=
  World demo_acks
        (list_to_map [(0x01, 0x07); (0x02, 0x01); (0x03, 0x02); (0x07, 0xFE); (0x08, 0xFF)])
        0 [] [] [].

Definition demo_twist : Sparkfun_QwiicTwist :=
  MkTwist (MkI2CDevice Bus QWIIC_TWIST_ADDR) Bus false.

Definition demo_chuck : WiiChuckBase :=
  MkWiiChuck 0%nat (MkI2CDevice Bus default_address) default_i2c_read_delay.

(** ** Vocabulary for the remaining operations *)

(** The signed 16-bit value an integer wraps to. *)
Definition wrap16 (v : Z) : Z := (v + 32768) mod 65536 - 32768.

(** World after an acknowledged write of [buf] by client [self]. *)
Definition written (self : Sparkfun_QwiicTwist) (buf : list Z) (dbg : list line)
    (w : world) : world :=
  say_all (if _debug self then dbg else [])
          (device_write buf (emit (BusWrite (device_address (_device self)) buf) w)).

(** The same client with the debug flag set to [flag]. *)
Definition with_debug (self : Sparkfun_QwiicTwist) (flag : bool) : Sparkfun_QwiicTwist :=
  MkTwist (_device self) (_i2c self) flag.

(** Two worlds that differ at most in what was printed. *)
Definition same_bus (w1 w2 : world) : Prop :=
  acks w1 = acks w2 /\ regs w1 = regs w2 /\ ptr w1 = ptr w2 /\
  heap w1 = heap w2 /\ trace w1 = trace w2.

(** A client on the alternate address, where [demo_world] has no device. *)
Definition demo_twist_alt : Sparkfun_QwiicTwist :=
  MkTwist (MkI2CDevice Bus QWIIC_TWIST_ADDR_ALT) Bus false.

Definition demo_chuck_absent : WiiChuckBase :=
  MkWiiChuck 0%nat (MkI2CDevice Bus 0x53) default_i2c_read_delay.

(** A client configured with a negative read delay. *)
Definition demo_chuck_negative : WiiChuckBase :=
  MkWiiChuck 0%nat (MkI2CDevice Bus default_address) (-1 # 1000).

(** An operation that stopped at its register select: the write of
    [[r]] to address [a] was not acknowledged and nothing else happened. *)
Definition select_fault {A} (a r : Z) (w : world) (out : result A * world) : Prop :=
  out.1 = Raise OSError /\ out.2 = emit (BusWrite a [r]) w.

(** Running [op] with debugging on or off gives the same result and the
    same bus, registers and heap; with debugging off nothing is printed. *)
Definition debug_only_prints {A} (op : Sparkfun_QwiicTwist -> M A)
    (self : Sparkfun_QwiicTwist) (w : world) : Prop :=
  (op (with_debug self true) w).1 = (op (with_debug self false) w).1 /\
  same_bus (op (with_debug self true) w).2 (op (with_debug self false) w).2 /\
  stdout (op (with_debug self false) w).2 = stdout w.

(** One write went out, all of its bytes in range, and the only possible
    failure is the transport's. *)
Definition one_byte_write (a : Z) (w : world) (out : result unit * world) : Prop :=
  exists payload,
    issued w out.2 = [BusWrite a payload] /\
    Forall (fun b => 0 <= b < 256) payload /\
    out.1 = if acks w a then Ok tt else Raise OSError.

(** The peripheral changes its registers to [m] between two driver calls. *)
Definition device_update (m : gmap Z Z) (w : world) : world :=
  World (acks w) m (ptr w) (heap w) (trace w) (stdout w).

Ltac world_steps :=
  unfold print, sleep, say, say_all, emit, set_heap; cbn -[lookup insert Qle_bool];
  change (Qle_bool 0 1) with true; change (Qle_bool 0 _I2C_INIT_DELAY) with true;
  cbn -[lookup insert Qle_bool];
  rewrite <- ?app_assoc; cbn -[lookup insert Qle_bool].

(** ** Bytes and bits *)

Lemma testbit_255 i : 0 <= i -> Z.testbit 255 i = (i <? 8).
Proof.
  intros Hi. change 255 with (Z.ones 8).
  destruct (Z.ltb_spec i 8).
  - apply Z.ones_spec_low. lia.
  - apply Z.ones_spec_high. lia.
Qed.

Lemma land_255_mod x : Z.land x 255 = x mod 256.
Proof. change 255 with (Z.ones 8). rewrite Z.land_ones by lia. reflexivity. Qed.

Lemma land_255_range x : 0 <= Z.land x 255 < 256.
Proof. rewrite land_255_mod. apply Z.mod_pos_bound. lia. Qed.

Lemma land_255_id x : 0 <= x < 256 -> Z.land x 255 = x.
Proof. intros H. rewrite land_255_mod. apply Z.mod_small. exact H. Qed.

Lemma is_byte_land x : is_byte (Z.land x 255) = true.
Proof.
  pose proof (land_255_range x). unfold is_byte.
  apply andb_true_intro. split; [apply Z.leb_le | apply Z.ltb_lt]; lia.
Qed.

Lemma byte_high_bits x i : 0 <= x < 256 -> 8 <= i -> Z.testbit x i = false.
Proof.
  intros Hx Hi. rewrite <- (land_255_id x Hx), Z.land_spec, testbit_255 by lia.
  replace (i <? 8) with false by (symmetry; apply Z.ltb_ge; lia).
  apply andb_false_r.
Qed.

(** [x & (1 << n)] is non-zero exactly when bit [n] of [x] is set. *)
Lemma truthy_land_bit x n : 0 <= n -> truthy (Z.land x (Z.shiftl 1 n)) = Z.testbit x n.
Proof.
  intros Hn. rewrite Z.shiftl_1_l. unfold truthy.
  destruct (Z.testbit x n) eqn:Hb.
  - apply negb_true_iff, Z.eqb_neq. intros H0.
    assert (Ht : Z.testbit (Z.land x (2 ^ n)) n = true).
    { rewrite Z.land_spec, Hb, Z.pow2_bits_true by lia. reflexivity. }
    rewrite H0, Z.bits_0 in Ht. discriminate.
  - apply negb_false_iff, Z.eqb_eq. apply Z.bits_inj'. intros i Hi.
    rewrite Z.land_spec, Z.bits_0, Z.pow2_bits_eqb by lia.
    destruct (Z.eqb_spec n i) as [->|]; [rewrite Hb | rewrite andb_false_r]; reflexivity.
Qed.

(** [x & ~(1 << n)] is [x] with bit [n] cleared. *)
Lemma land_lnot_bit x n : Z.land x (Z.lnot (Z.shiftl 1 n)) = Z.clearbit x n.
Proof. unfold Z.clearbit. symmetry. apply Z.ldiff_land. Qed.

Lemma clearbit_byte s n : 0 <= n -> 0 <= s < 256 -> 0 <= Z.clearbit s n < 256.
Proof.
  intros Hn Hs.
  assert (H : Z.clearbit s n = Z.land (Z.clearbit s n) 255).
  { apply Z.bits_inj'. intros i Hi.
    rewrite Z.land_spec, testbit_255, Z.clearbit_eqb by lia.
    destruct (Z.ltb_spec i 8); [rewrite andb_true_r; reflexivity |].
    rewrite (byte_high_bits s i) by lia. reflexivity. }
  rewrite H. apply land_255_range.
Qed.

Lemma testbit15_ge v : 0 <= v < 65536 -> Z.testbit v 15 = (32768 <=? v).
Proof.
  intros Hv. rewrite Z.testbit_eqb by lia. change (2 ^ 15) with 32768.
  destruct (Z.leb_spec 32768 v).
  - replace (v / 32768) with 1; [reflexivity |].
    apply Z.div_unique with (r := v - 32768); lia.
  - rewrite Z.div_small by lia. reflexivity.
Qed.

Lemma signed_int16_decode v : 0 <= v < 65536 -> _signed_int16 v = decode_signed16 v.
Proof.
  intros Hv. unfold _signed_int16, decode_signed16.
  rewrite truthy_land_bit, testbit15_ge by lia.
  change (Z.shiftl 1 16) with 65536.
  destruct (Z.leb_spec 32768 v), (Z.ltb_spec v 32768); lia.
Qed.

(** The 16-bit read assembly of two wire bytes is their weighted sum. *)
Lemma lor_shiftl_bytes lo hi :
  0 <= lo < 256 -> 0 <= hi < 256 -> Z.lor (Z.shiftl hi 8) lo = lo + 256 * hi.
Proof.
  intros Hlo Hhi.
  assert (Hdisj : Z.land (Z.shiftl hi 8) lo = 0).
  { apply Z.bits_inj'. intros i Hi. rewrite Z.land_spec, Z.bits_0.
    destruct (Z.ltb_spec i 8).
    - rewrite Z.shiftl_spec_low by lia. reflexivity.
    - rewrite (byte_high_bits lo i) by lia. apply andb_false_r. }
  rewrite <- (Z.lxor_lor _ _ Hdisj), <- (Z.add_nocarry_lxor _ _ Hdisj).
  rewrite Z.shiftl_mul_pow2 by lia. change (2 ^ 8) with 256. lia.
Qed.

(** ** Running the primitives *)

Lemma world_eta w : World (acks w) (regs w) (ptr w) (heap w) (trace w) (stdout w) = w.
Proof. destruct w. reflexivity. Qed.

Lemma say_all_nil w : say_all [] w = w.
Proof. unfold say_all. rewrite app_nil_r. apply world_eta. Qed.

Lemma heap_fresh_lookup (h : list (list Z)) x : (h ++ [x]) !! length h = Some x.
Proof. apply list_lookup_middle. reflexivity. Qed.

Lemma heap_fresh_insert (h : list (list Z)) x y : <[length h := y]> (h ++ [x]) = h ++ [y].
Proof.
  rewrite insert_app_r_alt by lia. rewrite Nat.sub_diag. reflexivity.
Qed.

Lemma bytes_ok items : forallb is_byte items = true -> bytes items = ret items.
Proof. intros H. unfold bytes. rewrite H. reflexivity. Qed.

Lemma sleep_nonneg seconds w :
  (0 <= seconds)%Q -> sleep seconds w = (Ok tt, emit (Sleep seconds) w).
Proof.
  intros H. unfold sleep. apply Qle_bool_iff in H. rewrite H. reflexivity.
Qed.

Lemma sleep_negative seconds w :
  (seconds < 0)%Q -> sleep seconds w = (Raise ValueError, w).
Proof.
  intros H. unfold sleep. destruct (Qle_bool 0 seconds) eqn:Hle; [| reflexivity].
  apply Qle_bool_iff in Hle. apply Qle_not_lt in Hle. contradiction.
Qed.

Lemma _write_register8_run self addr value w :
  _write_register8 self addr value w =
  after_write self [Z.land addr 255; Z.land value 255] [DebugWrite addr value] w.
Proof.
  unfold _write_register8, after_write, bind.
  rewrite bytes_ok by (cbn [forallb]; rewrite !is_byte_land; reflexivity).
  unfold ret, write. destruct (acks w _); [| reflexivity].
  destruct (_debug self); world_steps; rewrite ?app_nil_r; reflexivity.
Qed.

Lemma _write_register16_run self addr value w :
  _write_register16 self addr value w =
  after_write self
    [Z.land addr 255; Z.land value 255; Z.land (Z.shiftr value 8) 255]
    [DebugWrite addr (Z.land value 255);
     DebugWrite addr (Z.land (Z.shiftr value 8) 255)] w.
Proof.
  unfold _write_register16, after_write, bind.
  rewrite bytes_ok by (cbn [forallb]; rewrite !is_byte_land; reflexivity).
  unfold ret, write. destruct (acks w _); [| reflexivity].
  destruct (_debug self); world_steps; rewrite ?app_nil_r; reflexivity.
Qed.

Lemma _write_register24_run self addr value w :
  _write_register24 self addr value w =
  after_write self
    [Z.land addr 255; Z.land (Z.shiftr value 16) 255;
     Z.land (Z.shiftr value 8) 255; Z.land value 255]
    [DebugWrite addr (Z.land (Z.shiftr value 16) 255);
     DebugWrite addr (Z.land (Z.shiftr value 8) 255);
     DebugWrite addr (Z.land value 255)] w.
Proof.
  unfold _write_register24, after_write, bind.
  rewrite bytes_ok by (cbn [forallb]; rewrite !is_byte_land; reflexivity).
  unfold ret, write. destruct (acks w _); [| reflexivity].
  destruct (_debug self); world_steps; rewrite ?app_nil_r; reflexivity.
Qed.

Lemma after_write_trace self buf dbg w :
  trace (after_write self buf dbg w).2 =
  trace w ++ [BusWrite (device_address (_device self)) buf].
Proof.
  unfold after_write. destruct (acks w _); [| reflexivity].
  destruct buf; reflexivity.
Qed.

Lemma _read_register8_run self addr w :
  acks w (device_address (_device self)) = true ->
  _read_register8 self addr w =
  (Ok (reg (regs w) (Z.land addr 255)), after_read self addr (Z.land addr 255) 1 w).
Proof.
  intros Hack. unfold _read_register8, after_read, bind.
  rewrite bytes_ok by (cbn [forallb]; rewrite !is_byte_land; reflexivity).
  unfold ret, write, bytearray, readinto, getitem, contents.
  world_steps. rewrite Hack. world_steps.
  rewrite !heap_fresh_lookup, heap_fresh_insert. world_steps.
  rewrite Hack. world_steps.
  destruct (_debug self); world_steps;
    repeat (rewrite heap_fresh_lookup; simpl ((_ :: _) !! _); cbn -[lookup insert]);
    rewrite ?app_nil_r; reflexivity.
Qed.

Lemma _read_register16_run self addr w :
  acks w (device_address (_device self)) = true ->
  _read_register16 self addr w =
  (Ok (Z.lor (Z.shiftl (reg (regs w) (Z.land addr 255 + 1)) 8)
             (reg (regs w) (Z.land addr 255))),
   after_read self addr (Z.land addr 255) 2 w).
Proof.
  intros Hack. unfold _read_register16, after_read, bind.
  rewrite bytes_ok by (cbn [forallb]; rewrite !is_byte_land; reflexivity).
  unfold ret, write, bytearray, readinto, getitem, contents.
  world_steps. rewrite Hack. world_steps.
  rewrite !heap_fresh_lookup, heap_fresh_insert. world_steps.
  rewrite Hack. world_steps.
  destruct (_debug self); world_steps;
    repeat (rewrite heap_fresh_lookup; simpl ((_ :: _) !! _); cbn -[lookup insert]);
    rewrite ?app_nil_r; reflexivity.
Qed.

Lemma reg_insert_eq (m : gmap Z Z) a x : reg (<[a := x]> m) a = x.
Proof. unfold reg. rewrite lookup_insert_eq. reflexivity. Qed.

Lemma reg_insert_ne (m : gmap Z Z) a b x : a <> b -> reg (<[a := x]> m) b = reg m b.
Proof. intros H. unfold reg. rewrite lookup_insert_ne by exact H. reflexivity. Qed.

(** ** Status flags *)

Lemma flag_read_post bit self w s :
  0 <= bit ->
  acks w (device_address (_device self)) = true ->
  reg (regs w) _TWIST_STATUS = s ->
  0 <= s < 256 ->
  flag_post bit s (device_address (_device self)) w (flag_read bit self w).
Proof.
  intros Hbit Hack Hs Hrange.
  unfold flag_read, bind.
  rewrite _read_register8_run by exact Hack.
  rewrite _write_register8_run. unfold after_write, after_read.
  change (Z.land _TWIST_STATUS 255) with _TWIST_STATUS.
  cbn [acks]. rewrite Hack, Hs, land_lnot_bit.
  rewrite (land_255_id (Z.clearbit s bit)) by (apply clearbit_byte; assumption).
  unfold ret, flag_post. cbn -[lookup insert Z.clearbit Z.testbit Z.shiftl].
  repeat split.
  - rewrite truthy_land_bit by exact Hbit. reflexivity.
  - rewrite reg_insert_eq, Z.clearbit_eqb, Z.eqb_refl. apply andb_false_r.
  - intros i Hi. rewrite reg_insert_eq. apply Z.clearbit_neq. congruence.
  - rewrite <- app_assoc. reflexivity.
Qed.

(** C1: for an 8-bit status [s] held by the device, reading [moved]
    (resp. [pressed], [clicked]) returns whether bit 0 (resp. 1, 2) of
    [s] is set and, before returning, writes [s] back with exactly that
    bit cleared; every other bit of the status register is unchanged. *)
Theorem status_flag_read_clears_that_bit (self : Sparkfun_QwiicTwist) (w : world) (s : Z) :
  acks w (device_address (_device self)) = true ->
  reg (regs w) _TWIST_STATUS = s ->
  0 <= s < 256 ->
  flag_post 0 s (device_address (_device self)) w (moved self w) /\
  flag_post 1 s (device_address (_device self)) w (pressed self w) /\
  flag_post 2 s (device_address (_device self)) w (clicked self w).
Proof.
  intros Hack Hs Hrange.
  change (moved self) with (flag_read _ENCODER_MOVED_BIT self).
  change (pressed self) with (flag_read _BUTTON_PRESSED_BIT self).
  change (clicked self) with (flag_read _BUTTON_CLICKED_BIT self).
  split; [| split]; apply flag_read_post; try assumption;
    unfold _ENCODER_MOVED_BIT, _BUTTON_PRESSED_BIT, _BUTTON_CLICKED_BIT; lia.
Qed.

Lemma status_flag_read_clears_that_bit_demo :
  flag_post 0 7 0x3F demo_world (moved demo_twist demo_world) /\
  flag_post 1 7 0x3F demo_world (pressed demo_twist demo_world) /\
  flag_post 2 7 0x3F demo_world (clicked demo_twist demo_world).
Proof.
  apply (status_flag_read_clears_that_bit demo_twist demo_world 7);
    [reflexivity | vm_compute; reflexivity | lia].
Defined.

(** ** Re-addressing *)

Lemma after_write_acks self buf dbg w : acks (after_write self buf dbg w).2 = acks w.
Proof.
  unfold after_write. destruct (acks w _); [| reflexivity].
  destruct buf; reflexivity.
Qed.

Lemma after_write_issued self buf dbg w :
  issued w (after_write self buf dbg w).2 =
  [BusWrite (device_address (_device self)) buf].
Proof. unfold issued. rewrite after_write_trace. apply drop_app_length. Qed.

Lemma change_address_rejects self n w :
  ~ in_range n ->
  change_address self n w =
  (Ok (false, self), say (Text "ERROR: Address outside 8-119 range") w).
Proof.
  intros Hout. unfold change_address, in_range in *.
  replace ((n <? 8) || (n >? 119)) with true; [reflexivity |].
  symmetry. apply orb_true_iff.
  destruct (Z.ltb_spec n 8); [left; reflexivity | right].
  apply Z.gtb_lt. lia.
Qed.

Lemma change_address_accepts self n w :
  in_range n ->
  change_address self n w =
  match after_write self [_TWIST_CHANGE_ADDRESS; n]
                    [DebugWrite _TWIST_CHANGE_ADDRESS n] w with
  | (Ok _, w1) =>
      let w2 := emit (BusProbe n) (emit (Sleep 1) w1) in
      if acks w n then (Ok (true, rebound self n), w2)
      else (Ok (false, self),
            say_all [Text "Address Change Failure"; ExcText ValueError] w2)
  | (Raise e, w1) => (Raise e, w1)
  end.
Proof.
  intros Hin. unfold change_address, in_range in *.
  replace ((n <? 8) || (n >? 119)) with false.
  2:{ symmetry. apply orb_false_iff. rewrite Z.gtb_ltb.
      split; apply Z.ltb_ge; lia. }
  unfold bind at 1. rewrite _write_register8_run.
  change (Z.land _TWIST_CHANGE_ADDRESS 255) with _TWIST_CHANGE_ADDRESS.
  rewrite (land_255_id n) by lia.
  pose proof (after_write_acks self [_TWIST_CHANGE_ADDRESS; n]
                [DebugWrite _TWIST_CHANGE_ADDRESS n] w) as Hacks.
  destruct (after_write _ _ _ w) as [[[]|e] w1]; [| reflexivity].
  cbn [snd] in Hacks.
  unfold bind, try_except, I2CDevice_new, rebound. world_steps.
  rewrite Hacks. destruct (acks w n); unfold ret; world_steps; reflexivity.
Qed.

Lemma issued_app w w' evs : trace w' = trace w ++ evs -> issued w w' = evs.
Proof. intros H. unfold issued. rewrite H. apply drop_app_length. Qed.

Lemma change_address_accepts_trace self n w :
  in_range n ->
  exists rest,
    trace (change_address self n w).2 =
    trace w ++ BusWrite (device_address (_device self)) [_TWIST_CHANGE_ADDRESS; n] :: rest /\
    (acks w (device_address (_device self)) = true -> rest = [Sleep 1; BusProbe n]).
Proof.
  intros Hin. rewrite change_address_accepts by exact Hin. unfold after_write.
  destruct (acks w (device_address (_device self))).
  - exists [Sleep 1; BusProbe n]. split; [| reflexivity].
    destruct (acks w n); world_steps; reflexivity.
  - exists []. split; [reflexivity | discriminate].
Qed.

(** C2: [change_address] puts a write on the bus exactly when
    8 <= new_address <= 119.  Out of range it returns False with no
    event at all and the client untouched.  In range the first event is
    the 8-bit write of new_address to register 0x18; when that write is
    acknowledged it is followed by a one-second sleep and the probe of
    the new address, and when the probe is acknowledged too the client is
    rebound to the new address and the call returns True. *)
Theorem change_address_range_gate (self : Sparkfun_QwiicTwist) (n : Z) (w : world) :
  let out := change_address self n w in
  let old := device_address (_device self) in
  ((exists e, e ∈ issued w out.2 /\ is_bus_write e = true) <-> 8 <= n <= 119) /\
  (~ 8 <= n <= 119 ->
     out.1 = Ok (false, self) /\ issued w out.2 = [] /\
     regs out.2 = regs w /\ ptr out.2 = ptr w) /\
  (8 <= n <= 119 ->
     exists rest, issued w out.2 = BusWrite old [0x18; n] :: rest) /\
  (8 <= n <= 119 -> acks w old = true ->
     issued w out.2 = [BusWrite old [0x18; n]; Sleep 1; BusProbe n] /\
     reg (regs out.2) 0x18 = n) /\
  (8 <= n <= 119 -> acks w old = true -> acks w n = true ->
     out.1 = Ok (true, rebound self n) /\
     device_address (_device (rebound self n)) = n).
Proof.
  cbn zeta. fold (in_range n).
  assert (Hno : ~ in_range n ->
            (change_address self n w).1 = Ok (false, self) /\
            issued w (change_address self n w).2 = [] /\
            regs (change_address self n w).2 = regs w /\
            ptr (change_address self n w).2 = ptr w).
  { intros Hout. rewrite change_address_rejects by exact Hout.
    repeat split. apply (issued_app w _ []). cbn. rewrite app_nil_r. reflexivity. }
  assert (Hyes : in_range n ->
            exists rest, issued w (change_address self n w).2 =
              BusWrite (device_address (_device self)) [0x18; n] :: rest).
  { intros Hin. destruct (change_address_accepts_trace self n w Hin) as (rest & Ht & _).
    exists rest. apply issued_app. exact Ht. }
  split; [| split; [exact Hno | split; [exact Hyes | split]]].
  - split.
    + intros (e & He & Hw). destruct (decide (in_range n)) as [Hin | Hout]; [exact Hin |].
      destruct (Hno Hout) as (_ & Hnil & _). rewrite Hnil in He.
      apply elem_of_nil in He. contradiction.
    + intros Hin. destruct (Hyes Hin) as (rest & Hi).
      eexists. rewrite Hi. split; [apply elem_of_cons; left; reflexivity | reflexivity].
  - intros Hin Hold.
    destruct (change_address_accepts_trace self n w Hin) as (rest & Ht & Hrest).
    rewrite (Hrest Hold) in Ht. split; [apply issued_app; exact Ht |].
    rewrite change_address_accepts by exact Hin. unfold after_write. rewrite Hold.
    destruct (acks w n); cbn -[lookup insert]; apply reg_insert_eq.
  - intros Hin Hold Hnew.
    rewrite change_address_accepts by exact Hin. unfold after_write.
    rewrite Hold. cbn zeta. rewrite Hnew. split; reflexivity.
Qed.

Lemma change_address_range_gate_demo :
  (change_address demo_twist 64 demo_world).1 = Ok (true, rebound demo_twist 64) /\
  issued demo_world (change_address demo_twist 64 demo_world).2 =
    [BusWrite 0x3F [0x18; 64]; Sleep 1; BusProbe 64] /\
  (change_address demo_twist 5 demo_world).1 = Ok (false, demo_twist) /\
  issued demo_world (change_address demo_twist 5 demo_world).2 = [] /\
  (change_address demo_twist 200 demo_world).1 = Ok (false, demo_twist) /\
  issued demo_world (change_address demo_twist 200 demo_world).2 = [].
Proof.
  destruct (change_address_range_gate demo_twist 64 demo_world)
    as (_ & _ & _ & Hsent & Hok).
  destruct (change_address_range_gate demo_twist 5 demo_world)
    as (_ & Hlow & _).
  destruct (change_address_range_gate demo_twist 200 demo_world)
    as (_ & Hhigh & _).
  destruct (Hok ltac:(lia) eq_refl eq_refl) as [Hret _].
  destruct (Hsent ltac:(lia) eq_refl) as [Hev _].
  destruct (Hlow ltac:(lia)) as (Hl1 & Hl2 & _).
  destruct (Hhigh ltac:(lia)) as (Hh1 & Hh2 & _).
  repeat split; assumption.
Defined.

(** C3: when the address write has gone through and, after the settle
    delay, no device answers the probe of the new address, the
    constructor's ValueError is caught: [change_address] returns False,
    prints the cause, and the client keeps its previous binding, so the
    next transaction still goes to the old address. *)
Theorem change_address_rebind_failure (self : Sparkfun_QwiicTwist) (n : Z) (w : world) :
  8 <= n <= 119 ->
  acks w (device_address (_device self)) = true ->
  acks w n = false ->
  let out := change_address self n w in
  let old := device_address (_device self) in
  out.1 = Ok (false, self) /\
  issued w out.2 = [BusWrite old [0x18; n]; Sleep 1; BusProbe n] /\
  (exists pre, stdout out.2 =
     pre ++ [Text "Address Change Failure"; ExcText ValueError]) /\
  (forall self', out.1 = Ok (false, self') ->
     _device self' = _device self /\
     forall addr value,
       issued out.2 (_write_register8 self' addr value out.2).2 =
       [BusWrite old [Z.land addr 255; Z.land value 255]]).
Proof.
  intros Hin Hold Hnew. cbn zeta. fold (in_range n) in Hin.
  rewrite change_address_accepts by exact Hin. unfold after_write.
  rewrite Hold. cbn zeta. rewrite Hnew. cbn [fst snd].
  split; [reflexivity | split; [| split]].
  - apply issued_app. world_steps. reflexivity.
  - eexists. reflexivity.
  - intros self' Heq. injection Heq as <-. split; [reflexivity |].
    intros addr value. rewrite _write_register8_run. apply after_write_issued.
Qed.

Lemma change_address_rebind_failure_demo :
  (change_address demo_twist 100 demo_world).1 = Ok (false, demo_twist) /\
  issued demo_world (change_address demo_twist 100 demo_world).2 =
    [BusWrite 0x3F [0x18; 100]; Sleep 1; BusProbe 100].
Proof.
  destruct (change_address_rebind_failure demo_twist 100 demo_world
              ltac:(lia) eq_refl eq_refl) as (Hret & Hev & _).
  split; assumption.
Defined.

(** ** Sixteen-bit values *)

Lemma decode_signed16_range v : 0 <= v < 65536 -> -32768 <= decode_signed16 v <= 32767.
Proof. intros Hv. unfold decode_signed16. destruct (Z.ltb_spec v 32768); lia. Qed.

(** C4: on every 16-bit pattern [v], [_signed_int16] returns [v] below
    32768 and [v - 65536] from there on, which is to subtract 2^16
    exactly when bit 15 is set; the result lies in [-32768, 32767]. *)
Theorem signed_int16_reconstruction (v : Z) :
  0 <= v <= 65535 ->
  _signed_int16 v = (if v <? 32768 then v else v - 65536) /\
  _signed_int16 v = (if Z.testbit v 15 then v - 2 ^ 16 else v) /\
  -32768 <= _signed_int16 v <= 32767.
Proof.
  intros Hv. assert (Hv' : 0 <= v < 65536) by lia.
  split; [| split].
  - apply signed_int16_decode. exact Hv'.
  - unfold _signed_int16. rewrite truthy_land_bit by lia. reflexivity.
  - rewrite signed_int16_decode by exact Hv'. apply decode_signed16_range. exact Hv'.
Qed.

Lemma signed_int16_reconstruction_demo :
  _signed_int16 40000 = -25536 /\ -32768 <= _signed_int16 40000 <= 32767.
Proof.
  destruct (signed_int16_reconstruction 40000 ltac:(lia)) as (H & _ & Hr).
  split; [exact H | exact Hr].
Defined.

Lemma split16 v : v mod 256 + 256 * ((v / 256) mod 256) = v mod 65536.
Proof. change 65536 with (256 * 256). rewrite Z.rem_mul_r by lia. reflexivity. Qed.

Lemma shiftr8_byte v : Z.land (Z.shiftr v 8) 255 = (v / 256) mod 256.
Proof. rewrite land_255_mod, Z.shiftr_div_pow2 by lia. reflexivity. Qed.

Lemma decode_signed16_wrap v :
  -32768 <= v <= 32767 -> decode_signed16 (v mod 65536) = v.
Proof.
  intros Hv. unfold decode_signed16.
  destruct (Z.neg_nonneg_cases v) as [Hneg | Hpos].
  - replace (v mod 65536) with (v + 65536).
    + destruct (Z.ltb_spec (v + 65536) 32768); lia.
    + apply Z.mod_unique with (q := -1); lia.
  - rewrite Z.mod_small by lia. destruct (Z.ltb_spec v 32768); lia.
Qed.

(** The pure core of the 16-bit path: what [_write_register16] sends,
    reassembled as [_read_register16] does and sign-extended. *)
Lemma signed16_bytes_roundtrip v :
  -32768 <= v <= 32767 ->
  _signed_int16 (Z.lor (Z.shiftl (Z.land (Z.shiftr v 8) 255) 8) (Z.land v 255)) = v.
Proof.
  intros Hv.
  rewrite lor_shiftl_bytes by apply land_255_range.
  rewrite shiftr8_byte, land_255_mod, split16.
  rewrite signed_int16_decode by (apply Z.mod_pos_bound; lia).
  apply decode_signed16_wrap. exact Hv.
Qed.

Lemma reg_store2 (m : gmap Z Z) a lo hi :
  reg (store_from a [lo; hi] m) a = lo /\ reg (store_from a [lo; hi] m) (a + 1) = hi.
Proof.
  cbn [store_from]. split.
  - rewrite reg_insert_ne by lia. apply reg_insert_eq.
  - apply reg_insert_eq.
Qed.

(** C10: for a signed 16-bit [v], writing it with [_write_register16]
    and reading the same register back with [_read_register16] followed
    by [_signed_int16] gives [v] again, on a device that stores the two
    payload bytes. *)
Theorem write16_read16_signed_roundtrip
    (self : Sparkfun_QwiicTwist) (addr v : Z) (w : world) :
  acks w (device_address (_device self)) = true ->
  -32768 <= v <= 32767 ->
  ((_write_register16 self addr v ;;
    x <- _read_register16 self addr ;;
    ret (_signed_int16 x)) w).1 = Ok v /\
  _signed_int16 (Z.lor (Z.shiftl (Z.land (Z.shiftr v 8) 255) 8) (Z.land v 255)) = v.
Proof.
  intros Hack Hv. split; [| apply signed16_bytes_roundtrip; exact Hv].
  unfold bind at 1. rewrite _write_register16_run.
  pose proof (after_write_acks self
    [Z.land addr 255; Z.land v 255; Z.land (Z.shiftr v 8) 255]
    [DebugWrite addr (Z.land v 255); DebugWrite addr (Z.land (Z.shiftr v 8) 255)] w)
    as Hacks.
  unfold after_write in *. rewrite Hack in *. cbn [snd] in Hacks.
  unfold bind. rewrite _read_register16_run by (rewrite Hacks; exact Hack).
  unfold ret. cbn [fst regs say_all device_write emit].
  destruct (reg_store2 (regs w) (Z.land addr 255) (Z.land v 255)
              (Z.land (Z.shiftr v 8) 255)) as [Hlo Hhi].
  rewrite Hlo, Hhi. f_equal. apply signed16_bytes_roundtrip. exact Hv.
Qed.

Lemma write16_read16_signed_roundtrip_demo :
  ((_write_register16 demo_twist 0x05 (-2) ;;
    x <- _read_register16 demo_twist 0x05 ;;
    ret (_signed_int16 x)) demo_world).1 = Ok (-2).
Proof.
  destruct (write16_read16_signed_roundtrip demo_twist 0x05 (-2) demo_world
              eq_refl ltac:(lia)) as [H _].
  exact H.
Defined.

Lemma after_read_issued self addr r n w :
  issued w (after_read self addr r n w) =
  [BusWrite (device_address (_device self)) [r];
   BusRead (device_address (_device self)) n].
Proof. apply issued_app. reflexivity. Qed.

(** C5: reading [difference] returns the sign-extended 16-bit value held
    in the difference register and ends with a write of 0 to it, so the
    register holds 0 afterwards. *)
Theorem difference_read_resets (self : Sparkfun_QwiicTwist) (w : world) :
  acks w (device_address (_device self)) = true ->
  0 <= reg (regs w) 0x07 < 256 ->
  0 <= reg (regs w) 0x08 < 256 ->
  let out := difference self w in
  let a := device_address (_device self) in
  out.1 = Ok (decode_signed16 (reg16 (regs w) _TWIST_DIFFERENCE)) /\
  -32768 <= decode_signed16 (reg16 (regs w) _TWIST_DIFFERENCE) <= 32767 /\
  issued w out.2 = [BusWrite a [0x07]; BusRead a 2; BusWrite a [0x07; 0; 0]] /\
  regs out.2 = <[0x08 := 0]> (<[0x07 := 0]> (regs w)) /\
  reg16 (regs out.2) _TWIST_DIFFERENCE = 0.
Proof.
  intros Hack Hlo Hhi. cbn zeta.
  assert (H16 : 0 <= reg16 (regs w) _TWIST_DIFFERENCE < 65536).
  { unfold reg16, _TWIST_DIFFERENCE. change (7 + 1) with 8. lia. }
  unfold difference, bind.
  rewrite _read_register16_run by exact Hack.
  rewrite _write_register16_run. unfold after_write, after_read.
  change (Z.land _TWIST_DIFFERENCE 255) with 7. change (7 + 1) with 8.
  cbn [acks]. rewrite Hack. unfold ret.
  cbn -[lookup insert decode_signed16 _signed_int16 Z.lor Z.shiftl].
  rewrite lor_shiftl_bytes by assumption.
  rewrite signed_int16_decode by exact H16.
  split; [reflexivity | split; [apply decode_signed16_range; exact H16 |]].
  split; [apply issued_app; cbn; rewrite <- app_assoc; reflexivity |].
  split; [reflexivity |].
  unfold reg16, _TWIST_DIFFERENCE. change (7 + 1) with 8.
  rewrite reg_insert_eq, reg_insert_ne, reg_insert_eq by lia. reflexivity.
Qed.

Lemma difference_read_resets_demo :
  (difference demo_twist demo_world).1 = Ok (-2) /\
  reg16 (regs (difference demo_twist demo_world).2) _TWIST_DIFFERENCE = 0.
Proof.
  destruct (difference_read_resets demo_twist demo_world eq_refl)
    as (Hret & _ & _ & _ & Hzero).
  - change (0 <= 254 < 256). lia.
  - change (0 <= 255 < 256). lia.
  - split; [exact Hret | exact Hzero].
Defined.

(** ** Colour and 16-bit writes on the wire *)

Lemma pack_rgb r g b :
  let value := Z.lor (Z.lor (Z.shiftl (Z.land r 255) 16) (Z.shiftl (Z.land g 255) 8))
                     (Z.land b 255) in
  Z.land (Z.shiftr value 16) 255 = Z.land r 255 /\
  Z.land (Z.shiftr value 8) 255 = Z.land g 255 /\
  Z.land value 255 = Z.land b 255.
Proof.
  cbn zeta.
  pose proof (land_255_range r) as Hr. pose proof (land_255_range g) as Hg.
  pose proof (land_255_range b) as Hb.
  set (R := Z.land r 255) in *. set (G := Z.land g 255) in *.
  set (B := Z.land b 255) in *.
  repeat split; apply Z.bits_inj'; intros i Hi;
    rewrite Z.land_spec, testbit_255 by lia;
    destruct (Z.ltb_spec i 8);
    rewrite ?andb_true_r, ?andb_false_r;
    rewrite ?Z.shiftr_spec, ?Z.lor_spec, ?Z.shiftl_spec by lia;
    try (symmetry; apply byte_high_bits; [assumption | lia]).
  - rewrite (byte_high_bits G) by lia. rewrite (byte_high_bits B) by lia.
    rewrite !orb_false_r. f_equal. lia.
  - rewrite (Z.testbit_neg_r R) by lia. rewrite (byte_high_bits B) by lia.
    rewrite orb_false_r. cbn [orb]. f_equal. lia.
  - rewrite (Z.testbit_neg_r R) by lia. rewrite (Z.testbit_neg_r G) by lia.
    reflexivity.
Qed.

(** C6: [set_color(r, g, b)] issues one write transaction, with payload
    [0x0D, r & 0xFF, g & 0xFF, b & 0xFF]: the 24-bit value goes out most
    significant byte first, in a single write. *)
Theorem set_color_single_write (self : Sparkfun_QwiicTwist) (r g b : Z) (w : world) :
  issued w (set_color self r g b w).2 =
  [BusWrite (device_address (_device self))
     [0x0D; Z.land r 0xFF; Z.land g 0xFF; Z.land b 0xFF]].
Proof.
  unfold set_color. rewrite _write_register24_run, after_write_issued.
  destruct (pack_rgb r g b) as (Hr & Hg & Hb). rewrite Hr, Hg, Hb. reflexivity.
Qed.

Lemma set_color_single_write_demo :
  issued demo_world (set_color demo_twist 10 20 30 demo_world).2 =
  [BusWrite 0x3F [0x0D; 10; 20; 30]].
Proof. exact (set_color_single_write demo_twist 10 20 30 demo_world). Defined.

(** C7: [_write_register16] issues a single write whose payload is the
    register address, then the low byte of the value, then its high
    byte. *)
Theorem write_register16_lsb_first
    (self : Sparkfun_QwiicTwist) (addr value : Z) (w : world) :
  0 <= addr < 256 ->
  issued w (_write_register16 self addr value w).2 =
  [BusWrite (device_address (_device self))
     [addr; Z.land value 0xFF; Z.land (Z.shiftr value 8) 0xFF]] /\
  Z.land value 0xFF = value mod 256 /\
  Z.land (Z.shiftr value 8) 0xFF = (value / 256) mod 256.
Proof.
  intros Haddr. rewrite _write_register16_run, after_write_issued.
  rewrite (land_255_id addr) by exact Haddr.
  split; [reflexivity | split; [apply land_255_mod | apply shiftr8_byte]].
Qed.

Lemma write_register16_lsb_first_demo :
  issued demo_world (_write_register16 demo_twist 0x05 0x1234 demo_world).2 =
  [BusWrite 0x3F [0x05; 0x34; 0x12]].
Proof.
  destruct (write_register16_lsb_first demo_twist 0x05 0x1234 demo_world ltac:(lia))
    as [H _].
  exact H.
Defined.

(** ** Firmware version *)

Lemma unpack16 lo hi :
  0 <= lo < 256 -> 0 <= hi < 256 ->
  Z.land (lo + 256 * hi) 255 = lo /\ Z.land (Z.shiftr (lo + 256 * hi) 8) 255 = hi.
Proof.
  intros Hlo Hhi. rewrite shiftr8_byte, land_255_mod.
  assert (Hq : (lo + 256 * hi) / 256 = hi).
  { symmetry. apply Z.div_unique with (r := lo); lia. }
  rewrite Hq. split.
  - symmetry. apply Z.mod_unique with (q := hi); lia.
  - apply Z.mod_small. exact Hhi.
Qed.

(** C8: with wire bytes [lsb, msb] read from the version register,
    [version] returns "v", the decimal of [lsb], ".", the decimal of
    [msb]: the low byte is the major number, the high byte the minor. *)
Theorem version_low_byte_major (self : Sparkfun_QwiicTwist) (w : world) (lsb msb : Z) :
  acks w (device_address (_device self)) = true ->
  load_from 0x02 2 (regs w) = [lsb; msb] ->
  0 <= lsb < 256 ->
  0 <= msb < 256 ->
  let out := version self w in
  let a := device_address (_device self) in
  out.1 = Ok ("v" ++ str lsb ++ "." ++ str msb)%string /\
  issued w out.2 = [BusWrite a [0x02]; BusRead a 2] /\
  regs out.2 = regs w.
Proof.
  intros Hack Hwire Hlsb Hmsb. cbn zeta.
  cbn [load_from] in Hwire. injection Hwire as Hlo Hhi.
  unfold version, bind. rewrite _read_register16_run by exact Hack.
  change (Z.land _TWIST_VERSION 255) with 2.
  rewrite Hlo, Hhi. unfold ret. cbn [fst snd].
  rewrite lor_shiftl_bytes by assumption.
  destruct (unpack16 lsb msb Hlsb Hmsb) as [Hmaj Hmin]. rewrite Hmaj, Hmin.
  split; [reflexivity | split; [apply after_read_issued | reflexivity]].
Qed.

Lemma version_low_byte_major_demo :
  (version demo_twist demo_world).1 = Ok "v1.2"%string.
Proof.
  destruct (version_low_byte_major demo_twist demo_world 1 2 eq_refl)
    as [H _]; [vm_compute; reflexivity | lia | lia |].
  exact H.
Defined.

(** ** WiiChuck reads *)

Lemma WiiChuckBase_init_run bus address delay w :
  WiiChuckBase_init bus address delay w =
  if acks w address
  then (Ok (MkWiiChuck (length (heap w)) (MkI2CDevice bus address) delay),
        after_chuck_init address w)
  else (Raise ValueError,
        emit (BusProbe address) (set_heap (heap w ++ [replicate 8 0]) w)).
Proof.
  unfold WiiChuckBase_init, after_chuck_init, bind, bytearray, I2CDevice_new, write, ret.
  world_steps. destruct (acks w address) eqn:Hack;
    repeat (world_steps; rewrite ?Hack); reflexivity.
Qed.

Lemma _read_data_run self w :
  (0 <= _i2c_read_delay self)%Q ->
  acks w (device_address (i2c_device self)) = true ->
  chuck_ok self w ->
  _read_data self w = (Ok (buffer self), after_chuck_read self w).
Proof.
  intros Hdelay Hack (data & Hdata & Hlen). apply Qle_bool_iff in Hdelay.
  unfold _read_data, _read_register, after_chuck_read, bind, write, readinto, ret.
  world_steps. rewrite Hack. world_steps. rewrite Hdelay. world_steps.
  rewrite Hack, Hdata. world_steps.
  rewrite Hlen. reflexivity.
Qed.

Lemma chuck_ok_after_read self w : chuck_ok self w -> chuck_ok self (after_chuck_read self w).
Proof.
  intros (data & Hdata & _). exists (load_from 0 8 (regs w)). split.
  - cbn -[lookup insert load_from]. apply list_lookup_insert_eq.
    apply lookup_lt_Some with data. exact Hdata.
  - reflexivity.
Qed.

Lemma chuck_ok_after_init bus address delay w :
  chuck_ok (MkWiiChuck (length (heap w)) (MkI2CDevice bus address) delay)
           (after_chuck_init address w).
Proof.
  exists (replicate 8 0). split; [| reflexivity].
  cbn -[lookup replicate]. apply heap_fresh_lookup.
Qed.

Lemma read_many_run self n : forall w,
  (0 <= _i2c_read_delay self)%Q ->
  acks w (device_address (i2c_device self)) = true ->
  chuck_ok self w ->
  exists wn,
    read_many self n w = (Ok (replicate n (buffer self)), wn) /\
    trace wn =
      trace w ++
      concat (replicate n [BusWrite (device_address (i2c_device self)) [0x00];
                           Sleep (_i2c_read_delay self);
                           BusRead (device_address (i2c_device self)) 8]) /\
    length (heap wn) = length (heap w) /\
    chuck_ok self wn.
Proof.
  induction n as [| n IH]; intros w Hdelay Hack Hok.
  - exists w. repeat split; [| exact Hok].
    cbn. rewrite app_nil_r. reflexivity.
  - destruct (IH (after_chuck_read self w)) as (wn & Hrun & Hev & Hlen & Hok').
    + exact Hdelay.
    + exact Hack.
    + apply chuck_ok_after_read. exact Hok.
    + exists wn. cbn [read_many]. unfold bind at 1.
      rewrite _read_data_run by assumption.
      unfold bind at 1. rewrite Hrun. repeat split.
      * rewrite Hev. cbn [trace after_chuck_read replicate concat].
        rewrite <- app_assoc. reflexivity.
      * rewrite Hlen. cbn -[lookup insert load_from]. apply length_insert.
      * exact Hok'.
Qed.

(** C9: on a client built by [__init__] with a delay that [time.sleep]
    accepts (not negative), every [_read_data] writes the single byte
    0x00, sleeps the configured delay, reads 8 bytes into the client's
    buffer and returns that buffer; the buffer is the bytearray
    allocated at construction, in every call of any run of calls, and
    no call allocates.  The default delay is 2 ms, which is above the
    200 microseconds the device needs. *)
Theorem read_data_reuses_buffer
    (bus : I2C) (address : Z) (delay : Q) (w0 w1 : world) (self : WiiChuckBase) :
  (0 <= delay)%Q ->
  WiiChuckBase_init bus address delay w0 = (Ok self, w1) ->
  (buffer self = length (heap w0) /\ heap w0 !! buffer self = None /\
   heap w1 !! buffer self = Some (replicate 8 0) /\
   device_address (i2c_device self) = address /\
   _i2c_read_delay self = delay) /\
  (forall w, acks w address = true -> chuck_ok self w ->
     let out := _read_data self w in
     out.1 = Ok (buffer self) /\
     issued w out.2 = [BusWrite address [0x00]; Sleep delay; BusRead address 8] /\
     heap out.2 = <[buffer self := load_from 0x00 8 (regs w)]> (heap w) /\
     length (heap out.2) = length (heap w) /\
     chuck_ok self out.2 /\
     ((200 # 1000000 <= delay)%Q ->
      forall d, Sleep d ∈ issued w out.2 -> (200 # 1000000 <= d)%Q)) /\
  (forall n, exists wn,
     read_many self n w1 = (Ok (replicate n (buffer self)), wn) /\
     issued w1 wn =
       concat (replicate n [BusWrite address [0x00]; Sleep delay; BusRead address 8]) /\
     length (heap wn) = length (heap w1) /\
     chuck_ok self wn) /\
  (WiiChuckBase_default bus = WiiChuckBase_init bus 0x52 (2 # 1000) /\
   (200 # 1000000 <= 2 # 1000)%Q).
Proof.
  intros Hdelay.
  rewrite WiiChuckBase_init_run. destruct (acks w0 address) eqn:Hack; [| discriminate].
  intros Heq. injection Heq as <- <-. cbn [buffer i2c_device _i2c_read_delay device_address].
  split; [| split; [| split]].
  - repeat split.
    + apply lookup_ge_None. lia.
    + cbn -[lookup replicate]. apply heap_fresh_lookup.
  - intros w Hw Hok. cbn zeta. rewrite _read_data_run by assumption.
    cbn [fst snd].
    assert (Hev : issued w (after_chuck_read
                    (MkWiiChuck (length (heap w0)) (MkI2CDevice bus address) delay) w) =
                  [BusWrite address [0x00]; Sleep delay; BusRead address 8])
      by (apply issued_app; reflexivity).
    split; [reflexivity | split; [exact Hev |]].
    split; [reflexivity | split; [| split]].
    + cbn -[lookup insert load_from]. apply length_insert.
    + apply chuck_ok_after_read. exact Hok.
    + intros Hmin d Hd. rewrite Hev in Hd.
      apply elem_of_cons in Hd as [Hd | Hd]; [discriminate |].
      apply elem_of_cons in Hd as [Hd | Hd]; [injection Hd as ->; exact Hmin |].
      apply elem_of_cons in Hd as [Hd | Hd]; [discriminate |].
      apply elem_of_nil in Hd. contradiction.
  - intros n.
    destruct (read_many_run
                (MkWiiChuck (length (heap w0)) (MkI2CDevice bus address) delay) n
                (after_chuck_init address w0)) as (wn & Hrun & Hev & Hlen & Hok).
    + exact Hdelay.
    + exact Hack.
    + apply chuck_ok_after_init.
    + exists wn. repeat split; try assumption.
      apply issued_app. exact Hev.
  - split; [reflexivity |]. unfold Qle. cbn. lia.
Qed.

Lemma read_data_reuses_buffer_demo :
  (_read_data demo_chuck (after_chuck_init 0x52 demo_world)).1 = Ok 0%nat /\
  exists wn,
    read_many demo_chuck 3 (after_chuck_init 0x52 demo_world) =
      (Ok [0%nat; 0%nat; 0%nat], wn) /\
    length (heap wn) = 1%nat.
Proof.
  destruct (read_data_reuses_buffer Bus 0x52 (2 # 1000) demo_world
              (after_chuck_init 0x52 demo_world) demo_chuck)
    as (Hnew & Hcall & Hmany & _).
  - unfold Qle. cbn. lia.
  - vm_compute. reflexivity.
  - split.
    + destruct (Hcall (after_chuck_init 0x52 demo_world) eq_refl) as [H _].
      * exists (replicate 8 0). split; reflexivity.
      * exact H.
    + destruct (Hmany 3%nat) as (wn & Hrun & _ & Hlen & _).
      exists wn. split; [exact Hrun | exact Hlen].
Defined.

(** ** Composing the primitives *)

Lemma after_write_ack self buf dbg w :
  acks w (device_address (_device self)) = true ->
  after_write self buf dbg w = (Ok tt, written self buf dbg w).
Proof. intros Hack. unfold after_write, written. rewrite Hack. reflexivity. Qed.

Lemma after_write_nack self buf dbg w :
  acks w (device_address (_device self)) = false ->
  after_write self buf dbg w =
  (Raise OSError, emit (BusWrite (device_address (_device self)) buf) w).
Proof. intros Hack. unfold after_write. rewrite Hack. reflexivity. Qed.

Lemma written_acks self buf dbg w : acks (written self buf dbg w) = acks w.
Proof. unfold written. destruct buf; reflexivity. Qed.

Lemma written_regs self a data dbg w :
  regs (written self (a :: data) dbg w) = store_from a data (regs w).
Proof. reflexivity. Qed.

Lemma written_trace self buf dbg w :
  trace (written self buf dbg w) =
  trace w ++ [BusWrite (device_address (_device self)) buf].
Proof. unfold written. destruct buf; reflexivity. Qed.

Lemma written_heap self buf dbg w : heap (written self buf dbg w) = heap w.
Proof. unfold written. destruct buf; reflexivity. Qed.

Lemma _read_register8_nack self addr w :
  acks w (device_address (_device self)) = false ->
  _read_register8 self addr w =
  (Raise OSError, emit (BusWrite (device_address (_device self)) [Z.land addr 255]) w).
Proof.
  intros Hack. unfold _read_register8, bind.
  rewrite bytes_ok by (cbn [forallb]; rewrite !is_byte_land; reflexivity).
  unfold ret, write. rewrite Hack. reflexivity.
Qed.

Lemma _read_register16_nack self addr w :
  acks w (device_address (_device self)) = false ->
  _read_register16 self addr w =
  (Raise OSError, emit (BusWrite (device_address (_device self)) [Z.land addr 255]) w).
Proof.
  intros Hack. unfold _read_register16, bind.
  rewrite bytes_ok by (cbn [forallb]; rewrite !is_byte_land; reflexivity).
  unfold ret, write. rewrite Hack. reflexivity.
Qed.

Lemma write8_then_read8 self addr value w :
  acks w (device_address (_device self)) = true ->
  (_write_register8 self addr value ;; _read_register8 self addr) w =
  (Ok (Z.land value 255),
   after_read self addr (Z.land addr 255) 1
     (written self [Z.land addr 255; Z.land value 255] [DebugWrite addr value] w)).
Proof.
  intros Hack. unfold bind.
  rewrite _write_register8_run, after_write_ack by exact Hack.
  rewrite _read_register8_run by (rewrite written_acks; exact Hack).
  rewrite written_regs. cbn [store_from]. rewrite reg_insert_eq. reflexivity.
Qed.

(** X1: a byte written with [_write_register8] is what [_read_register8]
    of the same register returns, reduced modulo 256: any integer is
    accepted and only its low eight bits are kept. *)
Theorem write_register8_read_back
    (self : Sparkfun_QwiicTwist) (addr value : Z) (w : world) :
  acks w (device_address (_device self)) = true ->
  ((_write_register8 self addr value ;; _read_register8 self addr) w).1 =
    Ok (value mod 256) /\
  0 <= value mod 256 < 256 /\
  (0 <= value < 256 ->
   ((_write_register8 self addr value ;; _read_register8 self addr) w).1 = Ok value).
Proof.
  intros Hack. rewrite write8_then_read8 by exact Hack. cbn [fst].
  rewrite land_255_mod. split; [reflexivity | split].
  - apply Z.mod_pos_bound. lia.
  - intros Hv. rewrite Z.mod_small by exact Hv. reflexivity.
Qed.

Lemma write_register8_read_back_demo :
  ((_write_register8 demo_twist 0x0D 300 ;; _read_register8 demo_twist 0x0D) demo_world).1 =
  Ok 44.
Proof.
  destruct (write_register8_read_back demo_twist 0x0D 300 demo_world eq_refl) as [H _].
  exact H.
Defined.

Lemma read16_after_write16 self addr v dbg w :
  acks w (device_address (_device self)) = true ->
  _read_register16 self addr
    (written self [Z.land addr 255; Z.land v 255; Z.land (Z.shiftr v 8) 255] dbg w) =
  (Ok (v mod 65536),
   after_read self addr (Z.land addr 255) 2
     (written self [Z.land addr 255; Z.land v 255; Z.land (Z.shiftr v 8) 255] dbg w)).
Proof.
  intros Hack.
  rewrite _read_register16_run by (rewrite written_acks; exact Hack).
  rewrite written_regs.
  destruct (reg_store2 (regs w) (Z.land addr 255) (Z.land v 255)
              (Z.land (Z.shiftr v 8) 255)) as [Hlo Hhi].
  rewrite Hlo, Hhi. rewrite lor_shiftl_bytes by apply land_255_range.
  rewrite shiftr8_byte, land_255_mod, split16. reflexivity.
Qed.

(** X2: for every integer [v], [_write_register16] followed by
    [_read_register16] of the same register returns [v mod 65536]: the
    write keeps the low sixteen bits and the read returns them unsigned. *)
Theorem write_register16_read_back_unsigned
    (self : Sparkfun_QwiicTwist) (addr v : Z) (w : world) :
  acks w (device_address (_device self)) = true ->
  ((_write_register16 self addr v ;; _read_register16 self addr) w).1 =
    Ok (v mod 65536) /\
  0 <= v mod 65536 <= 65535.
Proof.
  intros Hack. unfold bind.
  rewrite _write_register16_run, after_write_ack by exact Hack.
  rewrite read16_after_write16 by exact Hack.
  split; [reflexivity |].
  pose proof (Z.mod_pos_bound v 65536 ltac:(lia)). lia.
Qed.

Lemma write_register16_read_back_unsigned_demo :
  ((_write_register16 demo_twist 0x05 (-2) ;; _read_register16 demo_twist 0x05)
     demo_world).1 = Ok 65534.
Proof.
  destruct (write_register16_read_back_unsigned demo_twist 0x05 (-2) demo_world eq_refl)
    as [H _].
  exact H.
Defined.

Lemma decode_signed16_wrap16 v : decode_signed16 (v mod 65536) = wrap16 v.
Proof.
  unfold decode_signed16, wrap16.
  pose proof (Z.mod_pos_bound v 65536 ltac:(lia)) as Hm.
  pose proof (Z.div_mod v 65536 ltac:(lia)) as Hd.
  destruct (Z.ltb_spec (v mod 65536) 32768).
  - rewrite <- (Z.mod_unique (v + 32768) 65536 (v / 65536) (v mod 65536 + 32768)); lia.
  - rewrite <- (Z.mod_unique (v + 32768) 65536 (v / 65536 + 1) (v mod 65536 - 32768)); lia.
Qed.

Lemma wrap16_id v : wrap16 v = v <-> -32768 <= v <= 32767.
Proof.
  unfold wrap16. split.
  - intros H. pose proof (Z.mod_pos_bound (v + 32768) 65536 ltac:(lia)). lia.
  - intros H. rewrite Z.mod_small by lia. lia.
Qed.

Lemma signed16_set_get self addr v w :
  acks w (device_address (_device self)) = true ->
  ((_write_register16 self addr v ;;
    value <- _read_register16 self addr ;;
    ret (_signed_int16 value)) w).1 = Ok (wrap16 v).
Proof.
  intros Hack. unfold bind.
  rewrite _write_register16_run, after_write_ack by exact Hack.
  rewrite read16_after_write16 by exact Hack.
  unfold ret. cbn [fst].
  rewrite signed_int16_decode by (apply Z.mod_pos_bound; lia).
  rewrite decode_signed16_wrap16. reflexivity.
Qed.

(** X3: each 16-bit setter followed by its getter returns the value
    wrapped into the signed 16-bit range, for every integer: [count],
    the three LED connections and [int_timeout] do no range check, and
    the value comes back unchanged exactly when it lies in
    [-32768, 32767]. *)
Theorem signed_setters_wrap (self : Sparkfun_QwiicTwist) (v : Z) (w : world) :
  acks w (device_address (_device self)) = true ->
  ((set_count self v ;; count self) w).1 = Ok (wrap16 v) /\
  ((set_red_connection self v ;; red_connection self) w).1 = Ok (wrap16 v) /\
  ((set_green_connection self v ;; green_connection self) w).1 = Ok (wrap16 v) /\
  ((set_blue_connection self v ;; blue_connection self) w).1 = Ok (wrap16 v) /\
  ((set_int_timeout self v ;; int_timeout self) w).1 = Ok (wrap16 v) /\
  -32768 <= wrap16 v <= 32767 /\
  (wrap16 v = v <-> -32768 <= v <= 32767).
Proof.
  intros Hack.
  repeat (split; [apply signed16_set_get; exact Hack |]).
  split; [| apply wrap16_id].
  unfold wrap16. pose proof (Z.mod_pos_bound (v + 32768) 65536 ltac:(lia)). lia.
Qed.

Lemma signed_setters_wrap_demo :
  ((set_int_timeout demo_twist 40000 ;; int_timeout demo_twist) demo_world).1 =
    Ok (-25536) /\
  ((set_count demo_twist (-7) ;; count demo_twist) demo_world).1 = Ok (-7).
Proof.
  destruct (signed_setters_wrap demo_twist 40000 demo_world eq_refl)
    as (_ & _ & _ & _ & Ht & _).
  destruct (signed_setters_wrap demo_twist (-7) demo_world eq_refl) as (Hc & _).
  split; [exact Ht | exact Hc].
Defined.

(** ** Status flags in sequence *)

Lemma flag_read_run bit self w :
  0 <= bit ->
  acks w (device_address (_device self)) = true ->
  0 <= reg (regs w) _TWIST_STATUS < 256 ->
  exists w',
    flag_read bit self w = (Ok (Z.testbit (reg (regs w) _TWIST_STATUS) bit), w') /\
    acks w' = acks w /\
    regs w' = <[_TWIST_STATUS := Z.clearbit (reg (regs w) _TWIST_STATUS) bit]> (regs w).
Proof.
  intros Hbit Hack Hs. eexists. unfold flag_read, bind.
  rewrite _read_register8_run by exact Hack.
  rewrite _write_register8_run, after_write_ack by exact Hack.
  change (Z.land _TWIST_STATUS 255) with _TWIST_STATUS.
  rewrite land_lnot_bit, truthy_land_bit by exact Hbit.
  rewrite (land_255_id (Z.clearbit _ bit)) by (apply clearbit_byte; assumption).
  unfold ret. split; [reflexivity | split].
  - rewrite written_acks. reflexivity.
  - rewrite written_regs. reflexivity.
Qed.

(** X4: a status flag is consumed by reading it: a second read of
    [moved] (resp. [pressed], [clicked]) right after the first returns
    False, whatever the first returned. *)
Theorem flag_read_twice_is_false (self : Sparkfun_QwiicTwist) (w : world) :
  acks w (device_address (_device self)) = true ->
  0 <= reg (regs w) _TWIST_STATUS < 256 ->
  ((moved self ;; moved self) w).1 = Ok false /\
  ((pressed self ;; pressed self) w).1 = Ok false /\
  ((clicked self ;; clicked self) w).1 = Ok false.
Proof.
  intros Hack Hs.
  assert (Hgen : forall bit, 0 <= bit ->
            ((flag_read bit self ;; flag_read bit self) w).1 = Ok false).
  { intros bit Hbit.
    destruct (flag_read_run bit self w Hbit Hack Hs) as (w1 & Hrun1 & Hacks1 & Hregs1).
    destruct (flag_read_run bit self w1 Hbit) as (w2 & Hrun2 & _).
    - rewrite Hacks1. exact Hack.
    - rewrite Hregs1, reg_insert_eq. apply clearbit_byte; assumption.
    - unfold bind. rewrite Hrun1, Hrun2. cbn [fst].
      rewrite Hregs1, reg_insert_eq, Z.clearbit_eqb, Z.eqb_refl, andb_false_r.
      reflexivity. }
  split; [| split].
  - apply (Hgen _ENCODER_MOVED_BIT). unfold _ENCODER_MOVED_BIT. lia.
  - apply (Hgen _BUTTON_PRESSED_BIT). unfold _BUTTON_PRESSED_BIT. lia.
  - apply (Hgen _BUTTON_CLICKED_BIT). unfold _BUTTON_CLICKED_BIT. lia.
Qed.

Lemma flag_read_twice_is_false_demo :
  ((moved demo_twist ;; moved demo_twist) demo_world).1 = Ok false.
Proof.
  destruct (flag_read_twice_is_false demo_twist demo_world eq_refl) as [H _].
  - change (0 <= 7 < 256). lia.
  - exact H.
Defined.

(** X5: the three flags do not disturb one another: read one after the
    other, in either direction, each accessor returns the bit the status
    register held before the first read, and afterwards the three flag
    bits are clear while bits 3 to 7 are as they were. *)
Theorem flag_reads_are_independent (self : Sparkfun_QwiicTwist) (w : world) (s : Z) :
  acks w (device_address (_device self)) = true ->
  reg (regs w) _TWIST_STATUS = s ->
  0 <= s < 256 ->
  let up := (x <- moved self ;; y <- pressed self ;; z <- clicked self ;;
             ret (x, y, z)) w in
  let down := (z <- clicked self ;; y <- pressed self ;; x <- moved self ;;
               ret (x, y, z)) w in
  up.1 = Ok (Z.testbit s 0, Z.testbit s 1, Z.testbit s 2) /\
  down.1 = Ok (Z.testbit s 0, Z.testbit s 1, Z.testbit s 2) /\
  reg (regs up.2) _TWIST_STATUS = Z.land s 0xF8 /\
  reg (regs down.2) _TWIST_STATUS = Z.land s 0xF8.
Proof.
  intros Hack Hs Hbyte. cbn zeta.
  assert (Hmask : forall x, 0 <= x < 256 ->
            (forall i, Z.testbit x i =
                       Z.testbit s i && negb (0 =? i) && negb (1 =? i) && negb (2 =? i)) ->
            x = Z.land s 0xF8).
  { intros x Hx Hbits. apply Z.bits_inj'. intros i Hi.
    rewrite Hbits, Z.land_spec.
    destruct (Z.eqb_spec 0 i) as [<- |]; [rewrite !andb_false_r; reflexivity |].
    destruct (Z.eqb_spec 1 i) as [<- |]; [rewrite !andb_false_r; reflexivity |].
    destruct (Z.eqb_spec 2 i) as [<- |]; [rewrite !andb_false_r; reflexivity |].
    rewrite !andb_true_r.
    destruct (Z.ltb_spec i 8).
    - assert (Hi' : i = 3 \/ i = 4 \/ i = 5 \/ i = 6 \/ i = 7) by lia.
      destruct Hi' as [-> | [-> | [-> | [-> | ->]]]];
        rewrite andb_true_r; reflexivity.
    - rewrite (byte_high_bits s i) by lia. reflexivity. }
  change (moved self) with (flag_read 0 self).
  change (pressed self) with (flag_read 1 self).
  change (clicked self) with (flag_read 2 self).
  assert (Hs' : 0 <= reg (regs w) _TWIST_STATUS < 256) by (rewrite Hs; exact Hbyte).
  assert (Hseq : forall b1 b2 b3, 0 <= b1 -> 0 <= b2 -> 0 <= b3 ->
            b1 <> b2 -> b1 <> b3 -> b2 <> b3 ->
            exists w3,
              (x <- flag_read b1 self ;; y <- flag_read b2 self ;;
               z <- flag_read b3 self ;; ret (x, y, z)) w =
                (Ok (Z.testbit s b1, Z.testbit s b2, Z.testbit s b3), w3) /\
              0 <= reg (regs w3) _TWIST_STATUS < 256 /\
              (forall i, Z.testbit (reg (regs w3) _TWIST_STATUS) i =
                         Z.testbit s i && negb (b1 =? i) && negb (b2 =? i)
                         && negb (b3 =? i))).
  { intros b1 b2 b3 H1 H2 H3 N12 N13 N23.
    destruct (flag_read_run b1 self w H1 Hack Hs') as (w1 & Hrun1 & Hacks1 & Hregs1).
    assert (Hs1 : reg (regs w1) _TWIST_STATUS = Z.clearbit s b1)
      by (rewrite Hregs1, Hs; apply reg_insert_eq).
    destruct (flag_read_run b2 self w1 H2) as (w2 & Hrun2 & Hacks2 & Hregs2);
      [rewrite Hacks1; exact Hack | rewrite Hs1; apply clearbit_byte; assumption |].
    assert (Hs2 : reg (regs w2) _TWIST_STATUS = Z.clearbit (Z.clearbit s b1) b2)
      by (rewrite Hregs2, Hs1; apply reg_insert_eq).
    destruct (flag_read_run b3 self w2 H3) as (w3 & Hrun3 & Hacks3 & Hregs3);
      [rewrite Hacks2, Hacks1; exact Hack
      | rewrite Hs2; repeat apply clearbit_byte; assumption |].
    exists w3. unfold bind. rewrite Hrun1, Hrun2, Hrun3. unfold ret.
    rewrite Hs, Hs1, Hs2, !Z.clearbit_eqb.
    replace (b1 =? b2) with false by (symmetry; apply Z.eqb_neq; exact N12).
    replace (b1 =? b3) with false by (symmetry; apply Z.eqb_neq; exact N13).
    replace (b2 =? b3) with false by (symmetry; apply Z.eqb_neq; exact N23).
    rewrite !andb_true_r. split; [reflexivity | split].
    - rewrite Hregs3, reg_insert_eq, Hs2. repeat apply clearbit_byte; assumption.
    - intros i. rewrite Hregs3, reg_insert_eq, Hs2, !Z.clearbit_eqb. reflexivity. }
  destruct (Hseq 0 1 2) as (wu & Hu & Hub & Hubits); try lia.
  destruct (Hseq 2 1 0) as (wd & Hd & Hdb & Hdbits); try lia.
  rewrite Hu.
  assert (Hd' : (z <- flag_read 2 self ;; y <- flag_read 1 self ;;
                 x <- flag_read 0 self ;; ret (x, y, z)) w =
                (Ok (Z.testbit s 0, Z.testbit s 1, Z.testbit s 2), wd)).
  { revert Hd. unfold bind.
    destruct (flag_read 2 self w) as [[z |] w1]; [| discriminate].
    destruct (flag_read 1 self w1) as [[y |] w2]; [| discriminate].
    destruct (flag_read 0 self w2) as [[x |] w3]; [| discriminate].
    unfold ret. intros Heq. injection Heq as -> -> -> ->. reflexivity. }
  rewrite Hd'. cbn [fst snd].
  split; [reflexivity | split; [reflexivity | split]].
  - apply Hmask; [exact Hub | exact Hubits].
  - apply Hmask; [exact Hdb |]. intros i. rewrite Hdbits.
    destruct (Z.testbit s i), (0 =? i), (1 =? i), (2 =? i); reflexivity.
Qed.

Lemma flag_reads_are_independent_demo :
  ((x <- moved demo_twist ;; y <- pressed demo_twist ;; z <- clicked demo_twist ;;
    ret (x, y, z)) demo_world).1 = Ok (true, true, true).
Proof.
  destruct (flag_reads_are_independent demo_twist demo_world 7 eq_refl)
    as [H _]; [vm_compute; reflexivity | lia |].
  exact H.
Defined.

(** X6: [clear_interrupts] writes 0 over the whole status register in
    one transaction, so that all three flag accessors return False
    afterwards. *)
Theorem clear_interrupts_clears_flags (self : Sparkfun_QwiicTwist) (w : world) :
  acks w (device_address (_device self)) = true ->
  let out := clear_interrupts self w in
  out.1 = Ok tt /\
  issued w out.2 = [BusWrite (device_address (_device self)) [0x01; 0]] /\
  reg (regs out.2) _TWIST_STATUS = 0 /\
  (moved self out.2).1 = Ok false /\
  (pressed self out.2).1 = Ok false /\
  (clicked self out.2).1 = Ok false.
Proof.
  intros Hack. cbn zeta. unfold clear_interrupts.
  rewrite _write_register8_run, after_write_ack by exact Hack. cbn [fst snd].
  change (Z.land _TWIST_STATUS 255) with _TWIST_STATUS. change (Z.land 0 255) with 0.
  assert (Hs : reg (regs (written self [_TWIST_STATUS; 0]
                            [DebugWrite _TWIST_STATUS 0] w)) _TWIST_STATUS = 0)
    by (rewrite written_regs; apply reg_insert_eq).
  assert (Hflag : forall bit, 0 <= bit ->
            (flag_read bit self (written self [_TWIST_STATUS; 0]
                                   [DebugWrite _TWIST_STATUS 0] w)).1 = Ok false).
  { intros bit Hbit.
    destruct (flag_read_run bit self
                (written self [_TWIST_STATUS; 0] [DebugWrite _TWIST_STATUS 0] w) Hbit)
      as (w' & Hrun & _).
    - rewrite written_acks. exact Hack.
    - rewrite Hs. lia.
    - rewrite Hrun, Hs, Z.bits_0. reflexivity. }
  split; [reflexivity | split; [| split; [exact Hs |]]].
  - apply issued_app. apply written_trace.
  - split; [| split].
    + apply (Hflag _ENCODER_MOVED_BIT). unfold _ENCODER_MOVED_BIT. lia.
    + apply (Hflag _BUTTON_PRESSED_BIT). unfold _BUTTON_PRESSED_BIT. lia.
    + apply (Hflag _BUTTON_CLICKED_BIT). unfold _BUTTON_CLICKED_BIT. lia.
Qed.

Lemma clear_interrupts_clears_flags_demo :
  (moved demo_twist (clear_interrupts demo_twist demo_world).2).1 = Ok false /\
  reg (regs (clear_interrupts demo_twist demo_world).2) _TWIST_STATUS = 0.
Proof.
  destruct (clear_interrupts_clears_flags demo_twist demo_world eq_refl)
    as (_ & _ & Hs & Hm & _).
  split; [exact Hm | exact Hs].
Defined.

(** ** The difference accumulator and the counter *)

Lemma difference_run self w :
  acks w (device_address (_device self)) = true ->
  0 <= reg (regs w) 7 < 256 ->
  0 <= reg (regs w) 8 < 256 ->
  exists w',
    difference self w = (Ok (decode_signed16 (reg16 (regs w) _TWIST_DIFFERENCE)), w') /\
    acks w' = acks w /\
    regs w' = <[8 := 0]> (<[7 := 0]> (regs w)).
Proof.
  intros Hack Hlo Hhi. eexists. unfold difference, bind.
  rewrite _read_register16_run by exact Hack.
  rewrite _write_register16_run, after_write_ack by exact Hack.
  change (Z.land _TWIST_DIFFERENCE 255) with 7. change (7 + 1) with 8.
  rewrite lor_shiftl_bytes by assumption.
  rewrite signed_int16_decode
    by (unfold reg16, _TWIST_DIFFERENCE in *; change (7 + 1) with 8; lia).
  unfold ret. split; [reflexivity | split].
  - rewrite written_acks. reflexivity.
  - rewrite written_regs. reflexivity.
Qed.

Lemma count_run self w :
  acks w (device_address (_device self)) = true ->
  (count self w).1 =
  Ok (_signed_int16 (Z.lor (Z.shiftl (reg (regs w) 6) 8) (reg (regs w) 5))).
Proof.
  intros Hack. unfold count, bind.
  rewrite _read_register16_run by exact Hack. reflexivity.
Qed.

(** X7: [difference] is an accumulator that a read empties: a second
    read right after the first returns 0.  The read touches only the
    difference register, so [count] read afterwards returns what it
    would have returned before. *)
Theorem difference_read_empties_only_itself (self : Sparkfun_QwiicTwist) (w : world) :
  acks w (device_address (_device self)) = true ->
  0 <= reg (regs w) 0x07 < 256 ->
  0 <= reg (regs w) 0x08 < 256 ->
  ((difference self ;; difference self) w).1 = Ok 0 /\
  ((difference self ;; count self) w).1 = (count self w).1.
Proof.
  intros Hack Hlo Hhi.
  destruct (difference_run self w Hack Hlo Hhi) as (w1 & Hrun1 & Hacks1 & Hregs1).
  assert (H7 : reg (regs w1) 7 = 0)
    by (rewrite Hregs1, reg_insert_ne, reg_insert_eq by lia; reflexivity).
  assert (H8 : reg (regs w1) 8 = 0) by (rewrite Hregs1; apply reg_insert_eq).
  split.
  - destruct (difference_run self w1) as (w2 & Hrun2 & _);
      [rewrite Hacks1; exact Hack | rewrite H7; lia | rewrite H8; lia |].
    unfold bind. rewrite Hrun1, Hrun2. cbn [fst].
    unfold reg16, _TWIST_DIFFERENCE. change (7 + 1) with 8. rewrite H7, H8.
    reflexivity.
  - unfold bind at 1. rewrite Hrun1.
    rewrite !count_run by (rewrite ?Hacks1; exact Hack).
    rewrite Hregs1, !reg_insert_ne by lia. reflexivity.
Qed.

Lemma difference_read_empties_only_itself_demo :
  ((difference demo_twist ;; difference demo_twist) demo_world).1 = Ok 0.
Proof.
  destruct (difference_read_empties_only_itself demo_twist demo_world eq_refl)
    as [H _].
  - change (0 <= 254 < 256). lia.
  - change (0 <= 255 < 256). lia.
  - exact H.
Defined.

(** ** LED colour *)

Lemma set_color_run self r g b w :
  acks w (device_address (_device self)) = true ->
  exists w',
    set_color self r g b w = (Ok tt, w') /\
    acks w' = acks w /\
    regs w' = <[0x0F := Z.land b 255]>
                (<[0x0E := Z.land g 255]> (<[0x0D := Z.land r 255]> (regs w))).
Proof.
  intros Hack. eexists. unfold set_color.
  rewrite _write_register24_run, after_write_ack by exact Hack.
  destruct (pack_rgb r g b) as (Hr & Hg & Hb). rewrite Hr, Hg, Hb.
  split; [reflexivity | split].
  - rewrite written_acks. reflexivity.
  - rewrite written_regs. reflexivity.
Qed.

Lemma read8_result self addr w :
  acks w (device_address (_device self)) = true ->
  exists w',
    _read_register8 self addr w = (Ok (reg (regs w) (Z.land addr 255)), w') /\
    acks w' = acks w /\ regs w' = regs w.
Proof.
  intros Hack. eexists. rewrite _read_register8_run by exact Hack.
  split; [reflexivity | split; reflexivity].
Qed.

(** X8: after [set_color(r, g, b)] the getters [red], [green] and
    [blue] return [r mod 256], [g mod 256] and [b mod 256]: the three
    bytes of the single 24-bit write land in the three LED registers. *)
Theorem set_color_read_back (self : Sparkfun_QwiicTwist) (r g b : Z) (w : world) :
  acks w (device_address (_device self)) = true ->
  ((set_color self r g b ;;
    x <- red self ;; y <- green self ;; z <- blue self ;;
    ret (x, y, z)) w).1 = Ok (r mod 256, g mod 256, b mod 256).
Proof.
  intros Hack.
  destruct (set_color_run self r g b w Hack) as (w0 & Hset & Hacks0 & Hregs0).
  destruct (read8_result self _TWIST_RED w0) as (w1 & Hr & Hacks1 & Hregs1);
    [congruence |].
  destruct (read8_result self _TWIST_GREEN w1) as (w2 & Hg & Hacks2 & Hregs2);
    [congruence |].
  destruct (read8_result self _TWIST_BLUE w2) as (w3 & Hb & _); [congruence |].
  unfold bind, red, green, blue. rewrite Hset, Hr, Hg, Hb. unfold ret. cbn [fst].
  rewrite Hregs2, Hregs1, Hregs0.
  change (Z.land _TWIST_RED 255) with 13. change (Z.land _TWIST_GREEN 255) with 14.
  change (Z.land _TWIST_BLUE 255) with 15.
  rewrite reg_insert_eq.
  rewrite (reg_insert_ne _ 15 14), reg_insert_eq by lia.
  rewrite (reg_insert_ne _ 15 13), (reg_insert_ne _ 14 13), reg_insert_eq by lia.
  rewrite !land_255_mod. reflexivity.
Qed.

Lemma set_color_read_back_demo :
  ((set_color demo_twist 10 20 300 ;;
    x <- red demo_twist ;; y <- green demo_twist ;; z <- blue demo_twist ;;
    ret (x, y, z)) demo_world).1 = Ok (10, 20, 44).
Proof. exact (set_color_read_back demo_twist 10 20 300 demo_world eq_refl). Defined.

(** X9: [set_color(r, g, b)] leaves the device registers exactly as the
    three setters [red = r], [green = g], [blue = b] do, with one bus
    transaction where the setters need three. *)
Theorem set_color_agrees_with_setters
    (self : Sparkfun_QwiicTwist) (r g b : Z) (w : world) :
  acks w (device_address (_device self)) = true ->
  let one := set_color self r g b w in
  let three := (set_red self r ;; set_green self g ;; set_blue self b) w in
  one.1 = Ok tt /\ three.1 = Ok tt /\
  regs one.2 = regs three.2 /\
  length (issued w one.2) = 1%nat /\
  length (issued w three.2) = 3%nat.
Proof.
  intros Hack. cbn zeta.
  destruct (set_color_run self r g b w Hack) as (w0 & Hset & _ & Hregs0).
  assert (Hone : issued w (set_color self r g b w).2 =
                 [BusWrite (device_address (_device self))
                    [0x0D; Z.land r 255; Z.land g 255; Z.land b 255]]).
  { unfold set_color. rewrite _write_register24_run, after_write_issued.
    destruct (pack_rgb r g b) as (Hr & Hg & Hb). rewrite Hr, Hg, Hb. reflexivity. }
  rewrite Hone. rewrite Hset. cbn [fst snd]. rewrite Hregs0.
  unfold bind, set_red, set_green, set_blue.
  rewrite _write_register8_run, after_write_ack by exact Hack.
  rewrite _write_register8_run, after_write_ack by (rewrite written_acks; exact Hack).
  rewrite _write_register8_run, after_write_ack
    by (rewrite !written_acks; exact Hack).
  cbn [fst snd]. rewrite !written_regs. cbn [store_from].
  split; [reflexivity | split; [reflexivity | split; [reflexivity | split]]].
  - reflexivity.
  - unfold issued. rewrite !written_trace, <- !app_assoc, drop_app_length. reflexivity.
Qed.

Lemma set_color_agrees_with_setters_demo :
  regs (set_color demo_twist 10 20 30 demo_world).2 =
  regs ((set_red demo_twist 10 ;; set_green demo_twist 20 ;; set_blue demo_twist 30)
          demo_world).2.
Proof.
  destruct (set_color_agrees_with_setters demo_twist 10 20 30 demo_world eq_refl)
    as (_ & _ & H & _).
  exact H.
Defined.

Lemma connect_color_run self r g b w :
  acks w (device_address (_device self)) = true ->
  connect_color self r g b w =
  (Ok tt,
   written self [0x14; Z.land b 255; Z.land (Z.shiftr b 8) 255]
     [DebugWrite _TWIST_CONNECT_BLUE (Z.land b 255);
      DebugWrite _TWIST_CONNECT_BLUE (Z.land (Z.shiftr b 8) 255)]
     (written self [0x12; Z.land g 255; Z.land (Z.shiftr g 8) 255]
        [DebugWrite _TWIST_CONNECT_GREEN (Z.land g 255);
         DebugWrite _TWIST_CONNECT_GREEN (Z.land (Z.shiftr g 8) 255)]
        (written self [0x10; Z.land r 255; Z.land (Z.shiftr r 8) 255]
           [DebugWrite _TWIST_CONNECT_RED (Z.land r 255);
            DebugWrite _TWIST_CONNECT_RED (Z.land (Z.shiftr r 8) 255)] w))).
Proof.
  intros Hack. unfold connect_color, bind.
  rewrite _write_register16_run, after_write_ack by exact Hack.
  rewrite _write_register16_run, after_write_ack by (rewrite written_acks; exact Hack).
  rewrite _write_register16_run, after_write_ack
    by (rewrite !written_acks; exact Hack).
  reflexivity.
Qed.

Lemma signed16_of_bytes v :
  _signed_int16 (Z.lor (Z.shiftl (Z.land (Z.shiftr v 8) 255) 8) (Z.land v 255)) =
  wrap16 v.
Proof.
  rewrite lor_shiftl_bytes by apply land_255_range.
  rewrite shiftr8_byte, land_255_mod, split16.
  rewrite signed_int16_decode by (apply Z.mod_pos_bound; lia).
  apply decode_signed16_wrap16.
Qed.

(** X10: [connect_color(r, g, b)] issues three 16-bit writes in the
    order red, green, blue, each low byte first, after which the three
    connection getters return the values wrapped to signed 16 bits. *)
Theorem connect_color_three_writes
    (self : Sparkfun_QwiicTwist) (r g b : Z) (w : world) :
  acks w (device_address (_device self)) = true ->
  let a := device_address (_device self) in
  let out := connect_color self r g b w in
  out.1 = Ok tt /\
  issued w out.2 =
    [BusWrite a [0x10; Z.land r 255; Z.land (Z.shiftr r 8) 255];
     BusWrite a [0x12; Z.land g 255; Z.land (Z.shiftr g 8) 255];
     BusWrite a [0x14; Z.land b 255; Z.land (Z.shiftr b 8) 255]] /\
  ((x <- red_connection self ;; y <- green_connection self ;;
    z <- blue_connection self ;; ret (x, y, z)) out.2).1 =
    Ok (wrap16 r, wrap16 g, wrap16 b).
Proof.
  intros Hack. cbn zeta. rewrite connect_color_run by exact Hack. cbn [fst snd].
  split; [reflexivity | split].
  - unfold issued. rewrite !written_trace, <- !app_assoc, drop_app_length. reflexivity.
  - set (w3 := written self _ _ (written self _ _ (written self _ _ w))).
    assert (Hacks3 : acks w3 = acks w) by (unfold w3; rewrite !written_acks; reflexivity).
    assert (Hregs3 : regs w3 =
              <[21 := Z.land (Z.shiftr b 8) 255]> (<[20 := Z.land b 255]>
              (<[19 := Z.land (Z.shiftr g 8) 255]> (<[18 := Z.land g 255]>
              (<[17 := Z.land (Z.shiftr r 8) 255]> (<[16 := Z.land r 255]> (regs w)))))))
      by reflexivity.
    unfold bind, red_connection, green_connection, blue_connection, bind, ret.
    rewrite _read_register16_run by (rewrite Hacks3; exact Hack). cbv beta iota.
    rewrite _read_register16_run by (cbn [after_read acks]; rewrite Hacks3; exact Hack).
    cbv beta iota.
    rewrite _read_register16_run by (cbn [after_read acks]; rewrite Hacks3; exact Hack).
    unfold ret. cbn [fst after_read regs].
    change (Z.land _TWIST_CONNECT_RED 255) with 16.
    change (Z.land _TWIST_CONNECT_GREEN 255) with 18.
    change (Z.land _TWIST_CONNECT_BLUE 255) with 20.
    change (16 + 1) with 17. change (18 + 1) with 19. change (20 + 1) with 21.
    rewrite Hregs3.
    repeat (rewrite ?reg_insert_eq; rewrite ?reg_insert_ne by lia).
    rewrite !signed16_of_bytes. reflexivity.
Qed.

Lemma connect_color_three_writes_demo :
  issued demo_world (connect_color demo_twist 1 (-1) 0x1234 demo_world).2 =
  [BusWrite 0x3F [0x10; 1; 0]; BusWrite 0x3F [0x12; 255; 255];
   BusWrite 0x3F [0x14; 0x34; 0x12]].
Proof.
  destruct (connect_color_three_writes demo_twist 1 (-1) 0x1234 demo_world eq_refl)
    as (_ & H & _).
  exact H.
Defined.

(** ** Transport faults *)

(** X11: when the device does not acknowledge, [connect_color] raises
    OSError at its first write: the green and blue writes are never
    attempted and no register changes. *)
Theorem connect_color_stops_at_first_fault
    (self : Sparkfun_QwiicTwist) (r g b : Z) (w : world) :
  acks w (device_address (_device self)) = false ->
  let out := connect_color self r g b w in
  out.1 = Raise OSError /\
  issued w out.2 =
    [BusWrite (device_address (_device self))
       [0x10; Z.land r 255; Z.land (Z.shiftr r 8) 255]] /\
  regs out.2 = regs w /\
  stdout out.2 = stdout w.
Proof.
  intros Hack. cbn zeta. unfold connect_color, bind.
  rewrite _write_register16_run, after_write_nack by exact Hack.
  cbn [fst snd]. split; [reflexivity | split; [| split; reflexivity]].
  apply issued_app. reflexivity.
Qed.

Lemma connect_color_stops_at_first_fault_demo :
  (connect_color demo_twist_alt 1 2 3 demo_world).1 = Raise OSError /\
  issued demo_world (connect_color demo_twist_alt 1 2 3 demo_world).2 =
    [BusWrite 0x3E [0x10; 1; 0]].
Proof.
  destruct (connect_color_stops_at_first_fault demo_twist_alt 1 2 3 demo_world eq_refl)
    as (H1 & H2 & _).
  split; [exact H1 | exact H2].
Defined.

(** X12: when the device does not acknowledge, every reading accessor
    raises OSError right after its one-byte register select: nothing is
    read, no flag is written back, the difference register is not
    reset, no bytearray is allocated and nothing is printed. *)
Theorem accessors_stop_at_register_select (self : Sparkfun_QwiicTwist) (w : world) :
  acks w (device_address (_device self)) = false ->
  let a := device_address (_device self) in
  select_fault a 0x00 w (connected self w) /\
  select_fault a 0x02 w (version self w) /\
  select_fault a 0x01 w (moved self w) /\
  select_fault a 0x01 w (pressed self w) /\
  select_fault a 0x01 w (clicked self w) /\
  select_fault a 0x07 w (difference self w) /\
  select_fault a 0x05 w (count self w) /\
  select_fault a 0x09 w (time_since_last_movement self w) /\
  select_fault a 0x0B w (time_since_last_press self w).
Proof.
  intros Hack. cbn zeta.
  unfold select_fault, connected, version, moved, pressed, clicked, difference,
    count, time_since_last_movement, time_since_last_press, bind.
  rewrite !_read_register8_nack, !_read_register16_nack by exact Hack.
  repeat split.
Qed.

Lemma accessors_stop_at_register_select_demo :
  (difference demo_twist_alt demo_world).1 = Raise OSError /\
  regs (difference demo_twist_alt demo_world).2 = regs demo_world.
Proof.
  destruct (accessors_stop_at_register_select demo_twist_alt demo_world eq_refl)
    as (_ & _ & _ & _ & _ & [H1 H2] & _).
  split; [exact H1 | rewrite H2; reflexivity].
Defined.

(** X13: when the write of the new address is not acknowledged,
    [change_address] raises OSError at once: there is no settle delay,
    no probe of the new address and no message, and OSError is not
    turned into a False result. *)
Theorem change_address_write_fault_propagates
    (self : Sparkfun_QwiicTwist) (n : Z) (w : world) :
  8 <= n <= 119 ->
  acks w (device_address (_device self)) = false ->
  let out := change_address self n w in
  out.1 = Raise OSError /\
  issued w out.2 = [BusWrite (device_address (_device self)) [0x18; n]] /\
  stdout out.2 = stdout w /\
  regs out.2 = regs w.
Proof.
  intros Hin Hack. cbn zeta. fold (in_range n) in Hin.
  rewrite change_address_accepts by exact Hin.
  rewrite after_write_nack by exact Hack. cbn [fst snd].
  split; [reflexivity | split; [| split; reflexivity]].
  apply issued_app. reflexivity.
Qed.

Lemma change_address_write_fault_propagates_demo :
  (change_address demo_twist_alt 64 demo_world).1 = Raise OSError /\
  issued demo_world (change_address demo_twist_alt 64 demo_world).2 =
    [BusWrite 0x3E [0x18; 64]].
Proof.
  destruct (change_address_write_fault_propagates demo_twist_alt 64 demo_world
              ltac:(lia) eq_refl) as (H1 & H2 & _).
  split; [exact H1 | exact H2].
Defined.

(** X14: the three write primitives accept every integer address and
    value: each puts exactly one write on the bus, every byte of which
    is in 0..255 because each item is masked with 0xFF, so [bytes]
    never raises ValueError and the only failure is the transport's
    OSError. *)
Theorem write_primitives_accept_any_integer
    (self : Sparkfun_QwiicTwist) (addr value : Z) (w : world) :
  let a := device_address (_device self) in
  one_byte_write a w (_write_register8 self addr value w) /\
  one_byte_write a w (_write_register16 self addr value w) /\
  one_byte_write a w (_write_register24 self addr value w).
Proof.
  cbn zeta. unfold one_byte_write.
  rewrite _write_register8_run, _write_register16_run, _write_register24_run.
  split; [| split]; eexists; (split; [apply after_write_issued | split]);
    try (repeat constructor; apply land_255_range);
    unfold after_write; destruct (acks w _); reflexivity.
Qed.

(** X15: the debug flag only adds console output: for each of the five
    register primitives the result, the bus traffic, the registers and
    the heap are the same with debugging on and off, and with debugging
    off nothing is printed. *)
Theorem debug_flag_only_prints (self : Sparkfun_QwiicTwist) (addr value : Z) (w : world) :
  debug_only_prints (fun s => _read_register8 s addr) self w /\
  debug_only_prints (fun s => _read_register16 s addr) self w /\
  debug_only_prints (fun s => _write_register8 s addr value) self w /\
  debug_only_prints (fun s => _write_register16 s addr value) self w /\
  debug_only_prints (fun s => _write_register24 s addr value) self w.
Proof.
  unfold debug_only_prints, same_bus.
  rewrite !_write_register8_run, !_write_register16_run, !_write_register24_run.
  unfold after_write, with_debug. cbn [_device _debug].
  destruct (acks w (device_address (_device self))) eqn:Hack.
  - rewrite !_read_register8_run, !_read_register16_run by exact Hack.
    unfold after_read. cbn -[lookup insert load_from].
    rewrite !app_nil_r. repeat split.
  - rewrite !_read_register8_nack, !_read_register16_nack by exact Hack.
    cbn. repeat split.
Qed.

(** ** Read-only accessors *)

(** X16: [time_since_last_movement] and [time_since_last_press] return
    the 16-bit register unsigned, in 0..65535, with no sign
    reconstruction, and they only read: the register is not cleared and
    the single write on the bus is the one-byte register select. *)
Theorem elapsed_times_are_unsigned_and_kept (self : Sparkfun_QwiicTwist) (w : world) :
  acks w (device_address (_device self)) = true ->
  (forall r, 0x09 <= r <= 0x0C -> 0 <= reg (regs w) r < 256) ->
  let a := device_address (_device self) in
  let move := time_since_last_movement self w in
  let press := time_since_last_press self w in
  move.1 = Ok (reg16 (regs w) 0x09) /\
  press.1 = Ok (reg16 (regs w) 0x0B) /\
  0 <= reg16 (regs w) 0x09 <= 65535 /\
  0 <= reg16 (regs w) 0x0B <= 65535 /\
  regs move.2 = regs w /\
  regs press.2 = regs w /\
  issued w move.2 = [BusWrite a [0x09]; BusRead a 2] /\
  issued w press.2 = [BusWrite a [0x0B]; BusRead a 2].
Proof.
  intros Hack Hbytes. cbn zeta.
  pose proof (Hbytes 9 ltac:(lia)) as H9. pose proof (Hbytes 10 ltac:(lia)) as H10.
  pose proof (Hbytes 11 ltac:(lia)) as H11. pose proof (Hbytes 12 ltac:(lia)) as H12.
  unfold time_since_last_movement, time_since_last_press, bind.
  rewrite !_read_register16_run by exact Hack. unfold ret. cbn [fst snd].
  change (Z.land _TWIST_LAST_ENCODER_EVENT 255) with 9.
  change (Z.land _TWIST_LAST_BUTTON_EVENT 255) with 11.
  change (9 + 1) with 10. change (11 + 1) with 12.
  rewrite !lor_shiftl_bytes by assumption.
  unfold reg16. change (9 + 1) with 10. change (11 + 1) with 12.
  repeat split; try lia; apply after_read_issued.
Qed.

Lemma elapsed_times_are_unsigned_and_kept_demo :
  (time_since_last_movement demo_twist
     (device_update (<[0x09 := 0xFE]> (<[0x0A := 0xFF]> (regs demo_world))) demo_world)).1 =
  Ok 65534.
Proof.
  destruct (elapsed_times_are_unsigned_and_kept demo_twist
              (device_update (<[0x09 := 0xFE]> (<[0x0A := 0xFF]> (regs demo_world)))
                 demo_world) eq_refl) as [H _].
  - intros r Hr.
    assert (Hc : r = 9 \/ r = 10 \/ r = 11 \/ r = 12) by lia.
    destruct Hc as [-> | [-> | [-> | ->]]]; vm_compute; split; congruence.
  - exact H.
Defined.

(** X17: [connected] returns True exactly when the identity register
    holds 0x5C; it only reads. *)
Theorem connected_iff_id_matches (self : Sparkfun_QwiicTwist) (w : world) :
  acks w (device_address (_device self)) = true ->
  let out := connected self w in
  exists b,
    out.1 = Ok b /\
    (b = true <-> reg (regs w) 0x00 = 0x5C) /\
    regs out.2 = regs w /\
    issued w out.2 = [BusWrite (device_address (_device self)) [0x00];
                      BusRead (device_address (_device self)) 1].
Proof.
  intros Hack. cbn zeta. unfold connected, bind.
  rewrite _read_register8_run by exact Hack.
  change (Z.land _TWIST_ID 255) with 0. unfold QWIIC_TWIST_ID.
  destruct (Z.eqb_spec (reg (regs w) 0) 92) as [Heq | Hne]; cbn [negb].
  - exists true. unfold ret. cbn [fst snd].
    split; [reflexivity | split; [| split; [reflexivity | apply after_read_issued]]].
    split; [intros _; exact Heq | reflexivity].
  - exists false. unfold ret. cbn [fst snd].
    split; [reflexivity | split; [| split; [reflexivity | apply after_read_issued]]].
    split; [discriminate | intros Heq; contradiction].
Qed.

Lemma connected_iff_id_matches_demo :
  (connected demo_twist (device_update (<[0x00 := 0x5C]> (regs demo_world)) demo_world)).1 =
    Ok true /\
  (connected demo_twist demo_world).1 = Ok false.
Proof.
  destruct (connected_iff_id_matches demo_twist
              (device_update (<[0x00 := 0x5C]> (regs demo_world)) demo_world) eq_refl)
    as (b1 & H1 & _).
  destruct (connected_iff_id_matches demo_twist demo_world eq_refl) as (b2 & H2 & _).
  split.
  - rewrite H1. f_equal. vm_compute in H1. congruence.
  - rewrite H2. f_equal. vm_compute in H2. congruence.
Defined.

(** X18: after a successful [change_address] the client talks to the
    new address: the next register write of the returned client is
    addressed to it, not to the old one. *)
Theorem change_address_then_write_targets_new
    (self : Sparkfun_QwiicTwist) (n addr value : Z) (w : world) :
  8 <= n <= 119 ->
  acks w (device_address (_device self)) = true ->
  acks w n = true ->
  let out := (r <- change_address self n ;; _write_register8 r.2 addr value) w in
  out.1 = Ok tt /\
  issued w out.2 =
    [BusWrite (device_address (_device self)) [0x18; n]; Sleep 1; BusProbe n;
     BusWrite n [Z.land addr 255; Z.land value 255]] /\
  reg (regs out.2) (Z.land addr 255) = Z.land value 255.
Proof.
  intros Hin Hold Hnew. cbn zeta. fold (in_range n) in Hin. unfold bind.
  rewrite change_address_accepts by exact Hin.
  rewrite after_write_ack by exact Hold. cbn zeta. rewrite Hnew. cbn [snd].
  rewrite _write_register8_run.
  rewrite after_write_ack
    by (cbn [rebound _device device_address emit acks]; rewrite written_acks; exact Hnew).
  cbn [fst snd]. split; [reflexivity | split].
  - apply issued_app. rewrite written_trace.
    cbn [rebound _device device_address emit trace]. rewrite written_trace.
    rewrite <- !app_assoc. reflexivity.
  - rewrite written_regs. cbn [store_from]. apply reg_insert_eq.
Qed.

Lemma change_address_then_write_targets_new_demo :
  issued demo_world
    ((r <- change_address demo_twist 64 ;; _write_register8 r.2 0x0D 9) demo_world).2 =
  [BusWrite 0x3F [0x18; 64]; Sleep 1; BusProbe 64; BusWrite 64 [0x0D; 9]].
Proof.
  destruct (change_address_then_write_targets_new demo_twist 64 0x0D 9 demo_world
              ltac:(lia) eq_refl eq_refl) as (_ & H & _).
  exact H.
Defined.

(** ** WiiChuck construction and faults *)

(** X19: [WiiChuckBase.__init__] allocates the 8-byte buffer, probes
    the address and, when a device answers, sends the two configuration
    writes F0 55 and FB 00, each preceded by a 0.1 s sleep.  When no
    device answers it raises ValueError after the probe alone: no
    configuration byte is sent and no register changes. *)
Theorem chuck_init_handshake_or_value_error
    (bus : I2C) (address : Z) (delay : Q) (w : world) :
  let out := WiiChuckBase_init bus address delay w in
  heap out.2 = heap w ++ [[0; 0; 0; 0; 0; 0; 0; 0]] /\
  (acks w address = true ->
     out.1 = Ok (MkWiiChuck (length (heap w)) (MkI2CDevice bus address) delay) /\
     issued w out.2 =
       [BusProbe address; Sleep (1 # 10); BusWrite address [0xF0; 0x55];
        Sleep (1 # 10); BusWrite address [0xFB; 0x00]] /\
     reg (regs out.2) 0xF0 = 0x55 /\ reg (regs out.2) 0xFB = 0x00) /\
  (acks w address = false ->
     out.1 = Raise ValueError /\
     issued w out.2 = [BusProbe address] /\
     regs out.2 = regs w).
Proof.
  cbn zeta. rewrite WiiChuckBase_init_run.
  destruct (acks w address); cbn [fst snd].
  - split; [reflexivity | split; [intros _ | discriminate]].
    split; [reflexivity | split; [apply issued_app; reflexivity | split]].
    + cbn -[lookup insert]. rewrite reg_insert_ne by lia. apply reg_insert_eq.
    + cbn -[lookup insert]. apply reg_insert_eq.
  - split; [reflexivity | split; [discriminate | intros _]].
    split; [reflexivity | split; [apply issued_app; reflexivity | reflexivity]].
Qed.

Lemma chuck_init_handshake_or_value_error_demo :
  (WiiChuckBase_init Bus 0x52 (2 # 1000) demo_world).1 = Ok demo_chuck /\
  (WiiChuckBase_init Bus 0x53 (2 # 1000) demo_world).1 = Raise ValueError.
Proof.
  destruct (chuck_init_handshake_or_value_error Bus 0x52 (2 # 1000) demo_world)
    as (_ & Hyes & _).
  destruct (chuck_init_handshake_or_value_error Bus 0x53 (2 # 1000) demo_world)
    as (_ & _ & Hno).
  destruct (Hyes eq_refl) as [H1 _]. destruct (Hno eq_refl) as [H2 _].
  split; [exact H1 | exact H2].
Defined.

Lemma _read_register_run self r data w :
  (0 <= _i2c_read_delay self)%Q ->
  acks w (device_address (i2c_device self)) = true ->
  chuck_ok self w ->
  _read_register self (r :: data) w =
  (Ok (buffer self),
   World (acks w) (store_from r data (regs w)) r
         (<[buffer self := load_from r 8 (store_from r data (regs w))]> (heap w))
         (trace w ++ [BusWrite (device_address (i2c_device self)) (r :: data);
                      Sleep (_i2c_read_delay self);
                      BusRead (device_address (i2c_device self)) 8])
         (stdout w)).
Proof.
  intros Hdelay Hack (buf & Hbuf & Hlen). apply Qle_bool_iff in Hdelay.
  unfold _read_register, bind, write, readinto, ret.
  world_steps. rewrite Hack. world_steps. rewrite Hdelay. world_steps.
  rewrite Hack, Hbuf. world_steps.
  rewrite Hlen. reflexivity.
Qed.

(** X20: with a delay that is not negative, [_read_register] sends the
    bytes it is given as one write, sleeps the configured delay and
    fills the buffer with the eight bytes that start at the register
    the first byte selects; it never allocates and always returns the
    client's own buffer. *)
Theorem read_register_reads_from_selected
    (self : WiiChuckBase) (r : Z) (data : list Z) (w : world) :
  (0 <= _i2c_read_delay self)%Q ->
  acks w (device_address (i2c_device self)) = true ->
  chuck_ok self w ->
  let a := device_address (i2c_device self) in
  let out := _read_register self (r :: data) w in
  out.1 = Ok (buffer self) /\
  issued w out.2 = [BusWrite a (r :: data); Sleep (_i2c_read_delay self); BusRead a 8] /\
  heap out.2 !! buffer self = Some (load_from r 8 (regs out.2)) /\
  length (heap out.2) = length (heap w) /\
  (forall l, l <> buffer self -> heap out.2 !! l = heap w !! l).
Proof.
  intros Hdelay Hack Hok. cbn zeta. rewrite _read_register_run by assumption.
  cbn [fst snd]. destruct Hok as (buf & Hbuf & _).
  split; [reflexivity | split; [apply issued_app; reflexivity | split; [| split]]].
  - cbn -[lookup insert load_from]. apply list_lookup_insert_eq.
    apply lookup_lt_Some with buf. exact Hbuf.
  - cbn -[lookup insert load_from]. apply length_insert.
  - intros l Hl. cbn -[lookup insert load_from].
    apply list_lookup_insert_ne. congruence.
Qed.

Lemma read_register_reads_from_selected_demo :
  heap (_read_register demo_chuck [0x01]
          (after_chuck_init 0x52 demo_world)).2 !! 0%nat =
  Some [0x07; 0x01; 0x02; 0; 0; 0; 0xFE; 0xFF].
Proof.
  destruct (read_register_reads_from_selected demo_chuck 0x01 []
              (after_chuck_init 0x52 demo_world)) as (_ & _ & H & _).
  - unfold Qle. cbn. lia.
  - reflexivity.
  - exists (replicate 8 0). split; reflexivity.
  - refine (eq_trans H _). vm_compute. reflexivity.
Defined.

(** X21: when the device does not acknowledge the register select,
    [_read_data] raises OSError at once: it does not sleep, does not
    read, and the buffer keeps the data of the previous read. *)
Theorem read_data_fault_keeps_buffer (self : WiiChuckBase) (w : world) :
  acks w (device_address (i2c_device self)) = false ->
  let out := _read_data self w in
  out.1 = Raise OSError /\
  issued w out.2 = [BusWrite (device_address (i2c_device self)) [0x00]] /\
  heap out.2 = heap w /\
  regs out.2 = regs w.
Proof.
  intros Hack. cbn zeta. unfold _read_data, _read_register, bind, write.
  rewrite Hack. cbn [fst snd].
  split; [reflexivity | split; [apply issued_app; reflexivity | split; reflexivity]].
Qed.

Lemma read_data_fault_keeps_buffer_demo :
  (_read_data demo_chuck_absent demo_world).1 = Raise OSError /\
  heap (_read_data demo_chuck_absent demo_world).2 = heap demo_world.
Proof.
  destruct (read_data_fault_keeps_buffer demo_chuck_absent demo_world eq_refl)
    as (H1 & _ & H2 & _).
  split; [exact H1 | exact H2].
Defined.

(** X22: with a delay that is not negative, the buffer a read returns
    is the one the next read fills: when the device's registers have
    changed in between, the bytes seen through the handle of the first
    read are those of the second read, so a caller that needs the
    earlier data has to copy it. *)
Theorem read_data_overwrites_earlier_result
    (self : WiiChuckBase) (w : world) (m : gmap Z Z) :
  (0 <= _i2c_read_delay self)%Q ->
  acks w (device_address (i2c_device self)) = true ->
  chuck_ok self w ->
  let first := _read_data self w in
  let second := _read_data self (device_update m first.2) in
  exists b,
    first.1 = Ok b /\ second.1 = Ok b /\
    heap first.2 !! b = Some (load_from 0x00 8 (regs w)) /\
    heap second.2 !! b = Some (load_from 0x00 8 m).
Proof.
  intros Hdelay Hack Hok. cbn zeta. exists (buffer self).
  rewrite (_read_data_run self w) by assumption. cbn [fst snd].
  assert (Hok1 : chuck_ok self (device_update m (after_chuck_read self w))).
  { destruct (chuck_ok_after_read self w Hok) as (d & Hd & Hlen).
    exists d. split; assumption. }
  rewrite _read_data_run by assumption. cbn [fst snd].
  destruct Hok as (buf & Hbuf & _).
  assert (Hlt : (buffer self < length (heap w))%nat)
    by (apply lookup_lt_Some with buf; exact Hbuf).
  split; [reflexivity | split; [reflexivity | split]].
  - cbn -[lookup insert load_from]. apply list_lookup_insert_eq. exact Hlt.
  - cbn -[lookup insert load_from]. apply list_lookup_insert_eq.
    rewrite length_insert. exact Hlt.
Qed.

Lemma read_data_overwrites_earlier_result_demo :
  heap (_read_data demo_chuck
          (device_update (<[0x00 := 0x7F]> ∅)
             (_read_data demo_chuck (after_chuck_init 0x52 demo_world)).2)).2 !! 0%nat =
  Some [0x7F; 0; 0; 0; 0; 0; 0; 0].
Proof.
  destruct (read_data_overwrites_earlier_result demo_chuck
              (after_chuck_init 0x52 demo_world) (<[0x00 := 0x7F]> ∅))
    as (b & H1 & _ & _ & H2).
  - unfold Qle. cbn. lia.
  - reflexivity.
  - exists (replicate 8 0). split; reflexivity.
  - vm_compute in H1. injection H1 as <-. refine (eq_trans H2 _).
    vm_compute. reflexivity.
Defined.

(** ** Reading a counter and writing it back *)

Lemma decode_signed16_bytes lo hi :
  0 <= lo < 256 -> 0 <= hi < 256 ->
  Z.land (decode_signed16 (lo + 256 * hi)) 255 = lo /\
  Z.land (Z.shiftr (decode_signed16 (lo + 256 * hi)) 8) 255 = hi.
Proof.
  intros Hlo Hhi. unfold decode_signed16.
  destruct (Z.ltb_spec (lo + 256 * hi) 32768); [apply unpack16; assumption |].
  rewrite shiftr8_byte, land_255_mod.
  replace (lo + 256 * hi - 65536) with (lo + (hi - 256) * 256) by lia.
  rewrite Z.mod_add, Z.div_add by lia.
  rewrite (Z.mod_small lo), (Z.div_small lo) by lia.
  replace (0 + (hi - 256)) with (hi + (-1) * 256) by lia.
  rewrite Z.mod_add by lia. rewrite Z.mod_small by lia. split; reflexivity.
Qed.

(** X23: writing back to [count] the value just read from it changes
    nothing on the device: the signed value re-encodes to the same two
    register bytes, so read-then-write is safe on every register
    content. *)
Theorem count_write_back_is_identity (self : Sparkfun_QwiicTwist) (w : world) :
  acks w (device_address (_device self)) = true ->
  0 <= reg (regs w) 0x05 < 256 ->
  0 <= reg (regs w) 0x06 < 256 ->
  let out := (v <- count self ;; set_count self v) w in
  out.1 = Ok tt /\
  reg (regs out.2) 0x05 = reg (regs w) 0x05 /\
  reg (regs out.2) 0x06 = reg (regs w) 0x06 /\
  (forall r, r <> 0x05 -> r <> 0x06 -> reg (regs out.2) r = reg (regs w) r).
Proof.
  intros Hack Hlo Hhi. cbn zeta. unfold count, set_count, bind, ret.
  rewrite _read_register16_run by exact Hack. cbv beta iota.
  rewrite _write_register16_run, after_write_ack by exact Hack.
  cbn [fst snd]. rewrite written_regs.
  change (Z.land _TWIST_COUNT 255) with 5. change (5 + 1) with 6.
  cbn [after_read regs store_from]. change (5 + 1) with 6.
  rewrite lor_shiftl_bytes by assumption.
  rewrite signed_int16_decode by lia.
  destruct (decode_signed16_bytes _ _ Hlo Hhi) as [Hl Hh]. rewrite Hl, Hh.
  split; [reflexivity | split; [| split]].
  - rewrite reg_insert_ne by lia. apply reg_insert_eq.
  - apply reg_insert_eq.
  - intros r H5 H6. rewrite !reg_insert_ne by congruence. reflexivity.
Qed.

Lemma count_write_back_is_identity_demo :
  reg (regs ((v <- count demo_twist ;; set_count demo_twist v)
               (device_update (<[0x05 := 0xFE]> (<[0x06 := 0xFF]> ∅)) demo_world)).2) 0x06 =
  0xFF.
Proof.
  destruct (count_write_back_is_identity demo_twist
              (device_update (<[0x05 := 0xFE]> (<[0x06 := 0xFF]> ∅)) demo_world) eq_refl)
    as (_ & _ & H & _).
  - change (0 <= 254 < 256). lia.
  - change (0 <= 255 < 256). lia.
  - exact H.
Defined.

(** X24: the read delay is not validated at construction, and a
    negative one makes every [_read_data] fail: the register select is
    written, then [time.sleep] raises ValueError, so nothing is read
    and the buffer keeps its contents. *)
Theorem read_data_negative_delay_raises (self : WiiChuckBase) (w : world) :
  (_i2c_read_delay self < 0)%Q ->
  acks w (device_address (i2c_device self)) = true ->
  let out := _read_data self w in
  out.1 = Raise ValueError /\
  issued w out.2 = [BusWrite (device_address (i2c_device self)) [0x00]] /\
  heap out.2 = heap w /\
  regs out.2 = regs w.
Proof.
  intros Hneg Hack. cbn zeta. unfold _read_data, _read_register, bind, write.
  rewrite Hack. rewrite sleep_negative by exact Hneg. cbn [fst snd].
  split; [reflexivity | split; [apply issued_app; reflexivity | split; reflexivity]].
Qed.

Lemma read_data_negative_delay_raises_demo :
  (WiiChuckBase_init Bus 0x52 (-1 # 1000) demo_world).1 = Ok demo_chuck_negative /\
  (_read_data demo_chuck_negative (after_chuck_init 0x52 demo_world)).1 = Raise ValueError /\
  issued (after_chuck_init 0x52 demo_world)
    (_read_data demo_chuck_negative (after_chuck_init 0x52 demo_world)).2 =
    [BusWrite 0x52 [0x00]].
Proof.
  destruct (read_data_negative_delay_raises demo_chuck_negative
              (after_chuck_init 0x52 demo_world)) as (H1 & H2 & _).
  - unfold Qlt. cbn. lia.
  - reflexivity.
  - split; [vm_compute; reflexivity | split; [exact H1 | exact H2]].
Defined.
